(** * sysutil.py: a report of CPU, memory, disk, network and sensor metrics

    A shallow embedding of [sysutil.py].  The script reads metrics through
    psutil and prints a framed textual report.  Printing is modelled by a
    writer monad over the text sent to standard output, Python exceptions by
    a sum, the operating-system reads by a record of results. *)

From Stdlib Require Import ZArith QArith Qabs Ascii Lia.
From Stdlib Require Import Numbers.DecimalString Numbers.DecimalZ.
From stdpp Require Import base option list strings gmap.

Local Open Scope Z_scope.

#[local] Arguments String.append !_ _ / : simpl nomatch.

(** ** Python values and exceptions *)

(** The exceptions the script can meet: a failed dictionary subscript, a
    subscript of [None], and whatever a psutil read raises. *)
Inductive exn : Type :=
  | KeyError (key : Z)
  | TypeError
  | ProviderError (what : string).

Definition result (A : Type) : Type := (exn + A)%type.

(** The writer monad: the text written so far, and the value or the
    exception raised.  The text written before an exception stays written. *)
Definition M (A : Type) : Type := (string * result A)%type.

Definition ret {A} (x : A) : M A := ("", inr x).

Definition raise {A} (e : exn) : M A := ("", inl e).

Definition bind {A B} (f : A -> M B) (m : M A) : M B :=
  match m with
  | (w, inl e) => (w, inl e)
  | (w, inr x) => let '(w', r) := f x in (w +:+ w', r)
  end.

#[export] Instance M_ret : MRet M := @ret.
#[export] Instance M_bind : MBind M := @bind.

(** A psutil call either returns or raises. *)
Definition call {A} (r : result A) : M A := ("", r).

Definition newline : string := String (ascii_of_nat 10) "".

(** [print(s)] and [print(s, end='')]. *)
Definition print (s : string) : M unit := (s +:+ newline, inr tt).
Definition print_noend (s : string) : M unit := (s, inr tt).

Definition stdout {A} (m : M A) : string := fst m.
Definition outcome {A} (m : M A) : result A := snd m.

(** [for x in l: body(x)] *)
Fixpoint for_each {A} (l : list A) (body : A -> M unit) : M unit :=
  match l with
  | [] => ret tt
  | x :: l' => body x ;; for_each l' body
  end.

(** The text of a sequence of lines, each closed by a newline. *)
Fixpoint unlines (ls : list string) : string :=
  match ls with
  | [] => ""
  | l :: ls' => l +:+ newline +:+ unlines ls'
  end.

(** The pieces of a text between occurrences of a separator, as
    [s.split(sep)] gives them (the piece after the last separator included). *)
Fixpoint split_on (sep : ascii) (s : string) : list string :=
  match s with
  | EmptyString => [""]
  | String c s' =>
      if Ascii.eqb c sep then "" :: split_on sep s'
      else match split_on sep s' with
           | [] => [String c ""]
           | f :: fs => String c f :: fs
           end
  end.

Definition lines (s : string) : list string := split_on (ascii_of_nat 10) s.

(** Whether a character occurs in a text. *)
Fixpoint has_char (c : ascii) (s : string) : bool :=
  match s with
  | EmptyString => false
  | String a s' => Ascii.eqb a c || has_char c s'
  end.

(** The last line of a text whose lines are all closed by a newline. *)
Definition final_line (out : string) : option string :=
  last (removelast (lines out)).

(** ** String formatting *)

Fixpoint str_repeat (s : string) (n : nat) : string :=
  match n with
  | O => ""
  | S n' => s +:+ str_repeat s n'
  end.

(** The decimal digits of a natural number. *)
Definition digits (z : Z) : string :=
  NilZero.string_of_uint (N.to_uint (Z.to_N z)).

(** [str(z)] and ["%d" % z] for an integer. *)
Definition str_int (z : Z) : string :=
  if z <? 0 then "-" +:+ digits (Z.abs z) else digits z.

(** ["%0wd" % z]: zeros between the sign and the digits up to width [w]. *)
Definition fmt_0d (w : nat) (z : Z) : string :=
  let ds := digits (Z.abs z) in
  if z <? 0 then "-" +:+ str_repeat "0" (w - 1 - String.length ds) +:+ ds
  else str_repeat "0" (w - String.length ds) +:+ ds.

(** [s.ljust(w)] and [s.rjust(w)]: ["%-ws"], and the format specification
    [:w] of a string (left) and of an integer (right). *)
Definition ljust (w : nat) (s : string) : string :=
  s +:+ str_repeat " " (w - String.length s).
Definition rjust (w : nat) (s : string) : string :=
  str_repeat " " (w - String.length s) +:+ s.

(** [str(x)] for [x] an integer or [None]. *)
Definition str_opt_int (x : option Z) : string :=
  match x with Some z => str_int z | None => "None" end.

(** [", ".join(l)] *)
Fixpoint join_comma (l : list string) : string :=
  match l with
  | [] => ""
  | [x] => x
  | x :: l' => x +:+ ", " +:+ join_comma l'
  end.

(** ** The Python runtime and the psutil library

    A finite float is modelled by the rational it denotes, so comparisons
    are exact.  What rounds or prints a float is taken from the runtime:
    [str], [round(x, n)] and the true division of two integers.  The
    iteration order of a [set] of strings is the runtime's too. *)
Record PyRuntime := {
  float_str : Q -> string;
  float_round : Q -> Z -> Q;
  int_truediv : Z -> Z -> Q;
  set_iter : gset string -> list string;
}.

(** [int(x)] of a float: truncation toward zero. *)
Definition float_int (x : Q) : Z := Z.quot (Qnum x) (Z.pos (Qden x)).

(** [x < n] of a float and an integer. *)
Definition float_lt_int (x : Q) (n : Z) : bool :=
  Qnum x <? n * Z.pos (Qden x).

(** [str(x)] for [x] a float or [None]. *)
Definition str_opt_float (py : PyRuntime) (x : option Q) : string :=
  match x with Some q => float_str py q | None => "None" end.

(** [str(l)] for a list of floats. *)
Definition str_float_list (py : PyRuntime) (l : list Q) : string :=
  "[" +:+ join_comma (map (float_str py) l) +:+ "]".

(** A Python number: [sensors_battery().percent] is a float where psutil
    computes it and an integer where the platform hands one over. *)
Inductive pynum : Type :=
  | PyInt (z : Z)
  | PyFloat (x : Q).

(** The value a number denotes. *)
Definition num_value (n : pynum) : Q :=
  match n with
  | PyInt z => inject_Z z
  | PyFloat x => x
  end.

(** [round(n, ndigits)] for [ndigits >= 0]: an integer is its own
    rounding, a float is rounded by the runtime. *)
Definition num_round (py : PyRuntime) (n : pynum) (ndigits : Z) : pynum :=
  match n with
  | PyInt z => PyInt z
  | PyFloat x => PyFloat (float_round py x ndigits)
  end.

(** [str(n)] and ["%s" % n] for a number. *)
Definition num_str (py : PyRuntime) (n : pynum) : string :=
  match n with
  | PyInt z => str_int z
  | PyFloat x => float_str py x
  end.

(** [n < k] of a number and an integer. *)
Definition num_lt_int (n : pynum) (k : Z) : bool :=
  match n with
  | PyInt z => z <? k
  | PyFloat x => float_lt_int x k
  end.

(** What the script imports from [socket] and [psutil]: the address-family
    and duplex codes, and [psutil._common.bytes2human]. *)
Record PsutilLib := {
  AF_INET : Z;
  AF_INET6 : Z;
  AF_LINK : Z;
  NIC_DUPLEX_FULL : Z;
  NIC_DUPLEX_HALF : Z;
  NIC_DUPLEX_UNKNOWN : Z;
  bytes2human : Z -> string;
}.

(** The named tuples psutil returns. *)
Record svmem := { vm_total : Z; vm_available : Z; vm_percent : Q }.

Record sdiskusage := { du_total : Z; du_used : Z; du_free : Z; du_percent : Q }.

Record snicstats := {
  isup : bool;
  duplex : Z;
  speed : Z;
  mtu : Z;
}.

Record snetio := {
  bytes_sent : Z; bytes_recv : Z;
  packets_sent : Z; packets_recv : Z;
  errin : Z; errout : Z;
  dropin : Z; dropout : Z;
}.

Record snicaddr := {
  family : Z;
  address : string;
  netmask : option string;
  broadcast : option string;
  ptp : option string;
}.

Record shwtemp := {
  t_label : string;
  t_current : Q;
  t_high : option Q;
  t_critical : option Q;
}.

Record sfan := { f_label : string; f_current : Z }.

Record sbattery := {
  percent : pynum;
  secsleft : Z;
  power_plugged : option bool;
}.

(** The reads of the operating system, each returning or raising.  A sensor
    read is [None] where psutil has no such attribute on the platform. *)
Record Provider := {
  cpu_percent : result Q;
  cpu_count_physical : result (option Z);
  cpu_percent_percpu : result (list Q);
  cpu_count_logical : result (option Z);
  cpu_freq : result (option (Q * Q * Q));
  virtual_memory : result svmem;
  disk_usage : string -> result sdiskusage;
  gethostname : string;
  net_if_stats : result (gmap string snicstats);
  net_io_counters : result (gmap string snetio);
  net_if_addrs : result (list (string * list snicaddr));
  sensors_temperatures : option (result (gmap string (list shwtemp)));
  sensors_fans : option (result (gmap string (list sfan)));
  sensors_battery : option (result (option sbattery));
}.

(** ** Module constants *)

Definition SECTION_SPAN : string := str_repeat "*" 80.
Definition SPACER : string := "*" +:+ str_repeat " " 78 +:+ "*".
Definition RAW_SPAN : string :=
  "********************************************************************************".
Definition PROGRAM_NAME : string :=
  "*            USING PSUTIL TO RETRIEVE USEFUL SYSTEM INFORMATION                *".
Definition CPU_INFO : string :=
  "*                               CPU INFORMATION                                *".
Definition MEMORY_INFO : string :=
  "*                            MEMORY INFORMATION                                *".
Definition DISK_INFO : string :=
  "*                              DISK INFORMATION                                *".
Definition NETWORK_INFO : string :=
  "*                           NETWORK INFORMATION                                *".
Definition CLIMATE_INFO : string :=
  "*                           CLIMATE INFORMATION                                *".

Definition MEGABYTE : Z := 1024 * 1024.
Definition GIGABYTE : Z := 1024 * 1024 * 1024.

(** The dictionary literals: a later key overrides an equal earlier one. *)
Definition af_map (ps : PsutilLib) : gmap Z string :=
  <[AF_LINK ps := "MAC"]> (<[AF_INET6 ps := "IPv6"]> (<[AF_INET ps := "IPv4"]> ∅)).

Definition duplex_map (ps : PsutilLib) : gmap Z string :=
  <[NIC_DUPLEX_UNKNOWN ps := "?"]>
    (<[NIC_DUPLEX_HALF ps := "half"]> (<[NIC_DUPLEX_FULL ps := "full"]> ∅)).

(** ** Unit and label converters *)

(** An address family shown in the report: a label of [af_map], or the raw
    code that [af_map.get(family, family)] hands back. *)
Inductive af_label : Type :=
  | AfName (s : string)
  | AfRaw (code : Z).

(** [af_map.get(family, family)] *)
Definition af_map_get (ps : PsutilLib) (fam : Z) : af_label :=
  match af_map ps !! fam with
  | Some s => AfName s
  | None => AfRaw fam
  end.

(** The format specification [:4]: a string is padded on the right, an
    integer on the left. *)
Definition fmt_af4 (l : af_label) : string :=
  match l with
  | AfName s => ljust 4 s
  | AfRaw z => rjust 4 (str_int z)
  end.

(** [duplex_map[code]]: the subscript raises [KeyError] on a missing key. *)
Definition duplex_map_getitem (ps : PsutilLib) (code : Z) : M string :=
  match duplex_map ps !! code with
  | Some s => ret s
  | None => raise (KeyError code)
  end.

(** [secs2hours]: Python's [divmod] on integers is floor division, as
    [Z.div] and [Z.modulo] are. *)
Definition secs2hours (secs : Z) : string :=
  let '(mm, ss) := (secs / 60, secs mod 60) in
  let '(hh, mm) := (mm / 60, mm mod 60) in
  str_int hh +:+ ":" +:+ fmt_0d 2 mm +:+ ":" +:+ fmt_0d 2 ss.

(** Truthiness of an optional string: [None] and [''] are false. *)
Definition str_truthy (s : option string) : bool :=
  match s with
  | Some (String _ _) => true
  | _ => false
  end.

(** Truthiness of a dictionary: true when it has a key. *)
Definition dict_truthy {V} (d : gmap string V) : bool :=
  negb (bool_decide (dom d = (∅ : gset string))).

(** Truthiness of [sensors_battery()]: a named tuple of three fields is
    true, [None] is false. *)
Definition battery_truthy (b : option sbattery) : bool :=
  match b with Some _ => true | None => false end.

(** Truthiness of [power_plugged], which is [True], [False] or [None]. *)
Definition plugged_truthy (b : option bool) : bool :=
  match b with Some true => true | _ => false end.

(** ** The report sections *)

Definition print_program_header : M unit :=
  print SECTION_SPAN ;;
  print SPACER ;;
  print PROGRAM_NAME ;;
  print SPACER ;;
  print SECTION_SPAN.

Definition print_section_header (name : string) : M unit :=
  print name ;;
  print SECTION_SPAN.

(** [cpu_freq_stats[i]] raises [TypeError] when [cpu_freq()] is [None]. *)
Definition freq_getitem (st : option (Q * Q * Q)) (i : nat) : M Q :=
  match st with
  | None => raise TypeError
  | Some (c, mn, mx) =>
      match i with
      | O => ret c
      | S O => ret mn
      | _ => ret mx
      end
  end.

Definition get_cpu_info (py : PyRuntime) (p : Provider) : M unit :=
  print_section_header CPU_INFO ;;
  aggregate_cpu_usage ← call (cpu_percent p) ;
  print ("Aggregate CPU usage: " +:+ float_str py aggregate_cpu_usage +:+ "%") ;;
  num_physical_cores ← call (cpu_count_physical p) ;
  print ("Physical cores:  " +:+ str_opt_int num_physical_cores) ;;
  per_core_cpu_usage ← call (cpu_percent_percpu p) ;
  print ("Individual core usage:  " +:+ str_float_list py per_core_cpu_usage +:+ "%") ;;
  num_cores_w_ht ← call (cpu_count_logical p) ;
  print ("Cores including HT:  " +:+ str_opt_int num_cores_w_ht) ;;
  cpu_freq_stats ← call (cpu_freq p) ;
  f0 ← freq_getitem cpu_freq_stats 0 ;
  let current_MHz := float_int f0 in
  f1 ← freq_getitem cpu_freq_stats 1 ;
  let min_MHz := float_int f1 in
  f2 ← freq_getitem cpu_freq_stats 2 ;
  let max_MHz := float_int f2 in
  print ("Current, min and max CPU MHz: " +:+ str_int current_MHz +:+ ", "
         +:+ str_int min_MHz +:+ ", " +:+ str_int max_MHz) ;;
  print SECTION_SPAN.

Definition get_memory_info (py : PyRuntime) (p : Provider) : M unit :=
  print_section_header MEMORY_INFO ;;
  mem_stats ← call (virtual_memory p) ;
  print ("Memory used:  " +:+ float_str py (vm_percent mem_stats) +:+ "%") ;;
  let approximate_GB_free :=
    float_round py (int_truediv py (vm_available mem_stats) GIGABYTE) 1 in
  print ("Free memory (GB): " +:+ float_str py approximate_GB_free) ;;
  print SECTION_SPAN.

Definition get_disk_info (py : PyRuntime) (p : Provider) : M unit :=
  print_section_header DISK_INFO ;;
  disk_usage_stats ← call (disk_usage p "/") ;
  let total_disk_size_gb :=
    float_round py (int_truediv py (du_total disk_usage_stats) GIGABYTE) 1 in
  print ("Disk size (GB): " +:+ float_str py total_disk_size_gb) ;;
  print ("Percent disk used: " +:+ float_str py (du_percent disk_usage_stats)) ;;
  print SECTION_SPAN.

(** The body of [for addr in addrs]. *)
Definition print_addr (ps : PsutilLib) (addr : snicaddr) : M unit :=
  print_noend ("    " +:+ fmt_af4 (af_map_get ps (family addr))) ;;
  print (" address    : " +:+ address addr) ;;
  (if str_truthy (broadcast addr)
   then print ("         broadcast  : " +:+ default "" (broadcast addr))
   else ret tt) ;;
  (if str_truthy (netmask addr)
   then print ("         netmask    : " +:+ default "" (netmask addr))
   else ret tt) ;;
  (if str_truthy (ptp addr)
   then print ("         p2p        : " +:+ default "" (ptp addr))
   else ret tt).

(** The body of [for nic, addrs in psutil.net_if_addrs().items()]. *)
Definition print_nic (ps : PsutilLib)
    (stats : gmap string snicstats) (io_counters : gmap string snetio)
    (item : string * list snicaddr) : M unit :=
  let '(nic, addrs) := item in
  print (nic +:+ ":") ;;
  match stats !! nic with
  | Some st =>
      print_noend "    stats           :" ;;
      let up := if isup st then "yes" else "no" in
      d ← duplex_map_getitem ps (duplex st) ;
      print (" speed=" +:+ str_int (speed st) +:+ "MB, duplex=" +:+ d
             +:+ ", mtu=" +:+ str_int (mtu st) +:+ ", up=" +:+ up)
  | None => ret tt
  end ;;
  match io_counters !! nic with
  | Some io =>
      print_noend "    incoming        :" ;;
      print (" bytes=" +:+ bytes2human ps (bytes_recv io)
             +:+ ", pkts=" +:+ str_int (packets_recv io)
             +:+ ", errs=" +:+ str_int (errin io)
             +:+ ", drops=" +:+ str_int (dropin io)) ;;
      print_noend "    outgoing        :" ;;
      print (" bytes=" +:+ bytes2human ps (bytes_sent io)
             +:+ ", pkts=" +:+ str_int (packets_sent io)
             +:+ ", errs=" +:+ str_int (errout io)
             +:+ ", drops=" +:+ str_int (dropout io))
  | None => ret tt
  end ;;
  for_each addrs (print_addr ps) ;;
  print "".

Definition get_network_info (ps : PsutilLib) (p : Provider) : M unit :=
  print_section_header NETWORK_INFO ;;
  print ("Host                : " +:+ gethostname p) ;;
  stats ← call (net_if_stats p) ;
  io_counters ← call (net_io_counters p) ;
  items ← call (net_if_addrs p) ;
  for_each items (print_nic ps stats io_counters) ;;
  print SECTION_SPAN.

(** [hasattr(psutil, name)] and the call, or the default. *)
Definition read_or {A} (attr : option (result A)) (dflt : A) : M A :=
  match attr with
  | Some r => call r
  | None => ret dflt
  end.

(** [entry.label or name] *)
Definition label_or (label name : string) : string :=
  match label with
  | EmptyString => name
  | _ => label
  end.

Definition print_temp_entry (py : PyRuntime) (name : string) (entry : shwtemp) : M unit :=
  print ("        " +:+ ljust 20 (label_or (t_label entry) name) +:+ " "
         +:+ float_str py (t_current entry) +:+ "°C (high="
         +:+ str_opt_float py (t_high entry) +:+ "°C, critical="
         +:+ str_opt_float py (t_critical entry) +:+ "°C)").

Definition print_fan_entry (name : string) (entry : sfan) : M unit :=
  print ("        " +:+ ljust 20 (label_or (f_label entry) name) +:+ " "
         +:+ str_int (f_current entry) +:+ " RPM").

(** The body of [for name in names]. *)
Definition print_sensor_group (py : PyRuntime)
    (temps : gmap string (list shwtemp)) (fans : gmap string (list sfan))
    (name : string) : M unit :=
  print name ;;
  match temps !! name with
  | Some entries =>
      print "    Temperatures:" ;;
      for_each entries (print_temp_entry py name)
  | None => ret tt
  end ;;
  match fans !! name with
  | Some entries =>
      print "    Fans:" ;;
      for_each entries (print_fan_entry name)
  | None => ret tt
  end.

(** The block under [if battery:]. *)
Definition print_battery (py : PyRuntime) (battery : sbattery) : M unit :=
  print "Battery:" ;;
  print ("    charge:     " +:+ num_str py (num_round py (percent battery) 2) +:+ "%") ;;
  if plugged_truthy (power_plugged battery) then
    print ("    status:     " +:+
           (if num_lt_int (percent battery) 100 then "charging" else "fully charged")) ;;
    print "    plugged in: yes"
  else
    print ("    left:       " +:+ secs2hours (secsleft battery)) ;;
    print ("    status:     " +:+ "discharging") ;;
    print "    plugged in: no".

Definition cannot_read_msg : string :=
  "Cannot read temperature, fans or battery info".

(** What [get_hw_temperatures] does once the three reads are in. *)
Definition render_climate (py : PyRuntime)
    (temps : gmap string (list shwtemp)) (fans : gmap string (list sfan))
    (battery : option sbattery) : M unit :=
  if negb (dict_truthy temps || dict_truthy fans || battery_truthy battery) then
    print cannot_read_msg
  else
    let names := dom temps ∪ dom fans in
    for_each (set_iter py names) (print_sensor_group py temps fans) ;;
    match battery with
    | Some b => print_battery py b
    | None => ret tt
    end ;;
    print SECTION_SPAN.

Definition get_hw_temperatures (py : PyRuntime) (p : Provider) : M unit :=
  print_section_header CLIMATE_INFO ;;
  temps ← read_or (sensors_temperatures p) ∅ ;
  fans ← read_or (sensors_fans p) ∅ ;
  battery ← read_or (sensors_battery p) None ;
  render_climate py temps fans battery.

(** The script's entry point.  [print('\n')] writes two newlines. *)
Definition main (py : PyRuntime) (ps : PsutilLib) (p : Provider) : M unit :=
  print newline ;;
  print_program_header ;;
  get_cpu_info py p ;;
  get_memory_info py p ;;
  get_disk_info py p ;;
  get_network_info ps p ;;
  get_hw_temperatures py p.

(** ** The byte-count humanizer *)

(** Modelled from the spec: the unit of [humanizeBytes(n)], counted from B
    upwards in binary multiples.  [bytes2human] is imported from
    [psutil._common] and its code is not among the sources, which only call
    it.  The spec scales [n] to the unit in which the value is below 1024;
    the unit taken is the largest one whose size does not exceed [n]. *)
Definition unit_order (n : Z) : Z := Z.log2 n / 10.

Definition unit_size (n : Z) : Z := 1024 ^ unit_order n.

(** Modelled from the spec: the suffixes B, KB, MB, GB, TB; the spec names
    no unit past TB, so those names are a parameter. *)
Definition unit_suffix (beyond : Z -> string) (k : Z) : string :=
  default (beyond k) (["B"; "KB"; "MB"; "GB"; "TB"] !! Z.to_nat k).

(** [a / b] rounded to the nearest integer, ties to even, for [b > 0]. *)
Definition round_half_even (a b : Z) : Z :=
  let q := a / b in
  let r := a mod b in
  if 2 * r <? b then q
  else if b <? 2 * r then q + 1
  else if Z.even q then q else q + 1.

(** The scaled value, exactly. *)
Definition scaled_value (n : Z) : Q := n # Z.to_pos (unit_size n).

(** The scaled value in tenths, as printed. *)
Definition scaled_tenths (n : Z) : Z := round_half_even (10 * n) (unit_size n).

Definition shown_value (n : Z) : Q := scaled_tenths n # 10.

(** Modelled from the spec: [humanizeBytes(n)], the missing [bytes2human]:
    the scaled value with one decimal place, then the unit suffix.  The spec
    leaves the rounding of the last decimal open; a tie goes to the even
    digit here. *)
Definition humanizeBytes (beyond : Z -> string) (n : Z) : string :=
  let t := scaled_tenths n in
  digits (t / 10) +:+ "." +:+ digits (t mod 10) +:+ unit_suffix beyond (unit_order n).

(** ** Reading a clock back *)

(** The fields of a text between colons. *)
Definition split_colon (s : string) : list string := split_on ":"%char s.

(** A field of digits as a number; [None] for anything else, a sign
    included. *)
Definition parse_nat (s : string) : option Z :=
  (fun u => Z.of_N (N.of_uint u)) <$> NilZero.uint_of_string s.

(** ["H:MM:SS"] as hours, minutes and seconds. *)
Definition parse_clock (s : string) : option (Z * Z * Z) :=
  match split_colon s with
  | [h; m; x] =>
      hh ← parse_nat h ;
      mm ← parse_nat m ;
      ss ← parse_nat x ;
      Some (hh, mm, ss)
  | _ => None
  end.

(** ** A runtime, a library and providers to run the script on *)

(** A runtime for floats of at most two decimals, on which Python prints
    the decimal itself: [str] gives the digits with at least one decimal,
    [round] goes to the nearest decimal, ties to even, and the iteration of
    a set follows [elements]. *)
Definition dec_float_str (q : Q) : string :=
  let h := round_half_even (100 * Qnum q) (Z.pos (Qden q)) in
  let a := Z.abs h in
  (if h <? 0 then "-" else "") +:+ digits (a / 100) +:+ "."
  +:+ digits (a mod 100 / 10)
  +:+ (if a mod 10 =? 0 then "" else digits (a mod 10)).

Definition dec_float_round (q : Q) (n : Z) : Q :=
  round_half_even (10 ^ n * Qnum q) (Z.pos (Qden q)) # Z.to_pos (10 ^ n).

Definition decimal_runtime : PyRuntime := {|
  float_str := dec_float_str;
  float_round := dec_float_round;
  int_truediv := fun a b => a # Z.to_pos b;
  set_iter := elements;
|}.

(** The codes of Linux: [AF_INET], [AF_INET6], [AF_PACKET], and psutil's
    [NicDuplex] enumeration. *)
Definition linux_psutil : PsutilLib := {|
  AF_INET := 2;
  AF_INET6 := 10;
  AF_LINK := 17;
  NIC_DUPLEX_FULL := 2;
  NIC_DUPLEX_HALF := 1;
  NIC_DUPLEX_UNKNOWN := 0;
  bytes2human := humanizeBytes (fun _ => "PB");
|}.

Definition lo_addr : snicaddr := {|
  family := 2;
  address := "127.0.0.1";
  netmask := Some "255.0.0.0";
  broadcast := None;
  ptp := None;
|}.

Definition eth_addr : snicaddr := {|
  family := 2;
  address := "192.168.1.7";
  netmask := Some "255.255.255.0";
  broadcast := Some "192.168.1.255";
  ptp := Some "";
|}.

Definition eth_mac : snicaddr := {|
  family := 17;
  address := "00:11:22:33:44:55";
  netmask := None;
  broadcast := Some "ff:ff:ff:ff:ff:ff";
  ptp := None;
|}.

Definition eth_stats : snicstats :=
  {| isup := true; duplex := 2; speed := 1000; mtu := 1500 |}.

Definition eth_io : snetio := {|
  bytes_sent := 1536; bytes_recv := 1048576;
  packets_sent := 12; packets_recv := 900;
  errin := 0; errout := 0; dropin := 3; dropout := 0;
|}.

Definition laptop_battery : sbattery :=
  {| percent := PyFloat 85.5; secsleft := 3661; power_plugged := Some false |}.

Definition core_temp : shwtemp :=
  {| t_label := "Core 0"; t_current := 45; t_high := Some 80%Q; t_critical := None |}.

(** A laptop on which every read succeeds. *)
Definition laptop : Provider := {|
  cpu_percent := inr 42%Q;
  cpu_count_physical := inr (Some 4);
  cpu_percent_percpu := inr [40%Q; 44%Q];
  cpu_count_logical := inr (Some 8);
  cpu_freq := inr (Some (2400%Q, 800%Q, 3600%Q));
  virtual_memory :=
    inr {| vm_total := 8 * GIGABYTE; vm_available := 2 * GIGABYTE; vm_percent := 75 |};
  disk_usage := fun _ =>
    inr {| du_total := 64 * GIGABYTE; du_used := 16 * GIGABYTE;
           du_free := 48 * GIGABYTE; du_percent := 25 |};
  gethostname := "laptop";
  net_if_stats := inr {[ "eth0" := eth_stats ]};
  net_io_counters := inr {[ "eth0" := eth_io ]};
  net_if_addrs := inr [("lo", [lo_addr]); ("eth0", [eth_addr; eth_mac])];
  sensors_temperatures := Some (inr {[ "coretemp" := [core_temp] ]});
  sensors_fans := Some (inr ∅);
  sensors_battery := Some (inr (Some laptop_battery));
|}.

(** The same machine, where the disk read raises. *)
Definition laptop_bad_disk : Provider := {|
  cpu_percent := cpu_percent laptop;
  cpu_count_physical := cpu_count_physical laptop;
  cpu_percent_percpu := cpu_percent_percpu laptop;
  cpu_count_logical := cpu_count_logical laptop;
  cpu_freq := cpu_freq laptop;
  virtual_memory := virtual_memory laptop;
  disk_usage := fun _ => inl (ProviderError "FileNotFoundError");
  gethostname := gethostname laptop;
  net_if_stats := net_if_stats laptop;
  net_io_counters := net_io_counters laptop;
  net_if_addrs := net_if_addrs laptop;
  sensors_temperatures := sensors_temperatures laptop;
  sensors_fans := sensors_fans laptop;
  sensors_battery := sensors_battery laptop;
|}.

(** A machine without sensors: no attribute for temperatures and fans, and
    no battery. *)
Definition server : Provider := {|
  cpu_percent := cpu_percent laptop;
  cpu_count_physical := cpu_count_physical laptop;
  cpu_percent_percpu := cpu_percent_percpu laptop;
  cpu_count_logical := cpu_count_logical laptop;
  cpu_freq := cpu_freq laptop;
  virtual_memory := virtual_memory laptop;
  disk_usage := disk_usage laptop;
  gethostname := "server";
  net_if_stats := net_if_stats laptop;
  net_io_counters := net_io_counters laptop;
  net_if_addrs := net_if_addrs laptop;
  sensors_temperatures := None;
  sensors_fans := None;
  sensors_battery := Some (inr None);
|}.


(** The lines the spec gives an optional field of an address: none when
    the field is absent or empty, otherwise the one line of its label and
    value. *)
Definition spec_field_lines (label : string) (field : option string) : list string :=
  match field with
  | None => []
  | Some EmptyString => []
  | Some v => [label +:+ v]
  end.

(** The six section titles, in the order the spec runs the sections. *)
Definition section_titles : list string :=
  [PROGRAM_NAME; CPU_INFO; MEMORY_INFO; DISK_INFO; NETWORK_INFO; CLIMATE_INFO].

(** The spec's reading of the orchestrator: whatever the reads do, every
    section runs, so every title is a line of the report. *)
Definition spec_every_section_runs (py : PyRuntime) (ps : PsutilLib) (p : Provider) : Prop :=
  Forall (fun title => title ∈ lines (stdout (main py ps p))) section_titles.

(** The spec's reading of the duplex converter: a label for every code. *)
Definition spec_duplex_total (ps : PsutilLib) : Prop :=
  forall code : Z, exists s : string,
    duplex_map_getitem ps code = ret s /\ s ∈ ["full"; "half"; "?"].


(** ** What a run writes

    A run that returns has written exactly the lines [ls]. *)
Definition writes {A} (m : M A) (ls : list string) : Prop :=
  exists x : A, m = (unlines ls, inr x).

(** A run that, when it returns, has written closed lines only. *)
Definition closed_lines {A} (m : M A) : Prop :=
  forall x : A, outcome m = inr x -> exists ls, stdout m = unlines ls.

(** A run that, when it returns, has written closed lines of which the
    last is the bottom banner. *)
Definition ends_with_banner {A} (m : M A) : Prop :=
  forall x : A, outcome m = inr x ->
    exists ls, stdout m = unlines (ls ++ [SECTION_SPAN]).

(** The line of an address, and the lines [print_addr] writes for it. *)
Definition address_line (ps : PsutilLib) (addr : snicaddr) : string :=
  "    " +:+ fmt_af4 (af_map_get ps (family addr)) +:+ " address    : " +:+ address addr.

Definition addr_lines (ps : PsutilLib) (addr : snicaddr) : list string :=
  address_line ps addr
  :: spec_field_lines "         broadcast  : " (broadcast addr)
  ++ spec_field_lines "         netmask    : " (netmask addr)
  ++ spec_field_lines "         p2p        : " (ptp addr).

(** A run that starts in the middle of the line [pre] and, when it
    returns, has closed that line and every line after it. *)
Definition closed_after {A} (pre : string) (m : M A) : Prop :=
  forall x : A, outcome m = inr x -> exists ls, pre +:+ stdout m = unlines ls.

(** The lines [print_nic] writes for an interface. *)
Definition stats_lines (ps : PsutilLib) (stats : gmap string snicstats)
    (nic : string) : list string :=
  match stats !! nic with
  | Some st =>
      ["    stats           :" +:+ " speed=" +:+ str_int (speed st) +:+ "MB, duplex="
       +:+ default "" (duplex_map ps !! duplex st)
       +:+ ", mtu=" +:+ str_int (mtu st) +:+ ", up=" +:+ (if isup st then "yes" else "no")]
  | None => []
  end.

Definition io_lines (ps : PsutilLib) (io_counters : gmap string snetio)
    (nic : string) : list string :=
  match io_counters !! nic with
  | Some io =>
      ["    incoming        :" +:+ " bytes=" +:+ bytes2human ps (bytes_recv io)
       +:+ ", pkts=" +:+ str_int (packets_recv io)
       +:+ ", errs=" +:+ str_int (errin io)
       +:+ ", drops=" +:+ str_int (dropin io);
       "    outgoing        :" +:+ " bytes=" +:+ bytes2human ps (bytes_sent io)
       +:+ ", pkts=" +:+ str_int (packets_sent io)
       +:+ ", errs=" +:+ str_int (errout io)
       +:+ ", drops=" +:+ str_int (dropout io)]
  | None => []
  end.

Definition nic_lines (ps : PsutilLib)
    (stats : gmap string snicstats) (io_counters : gmap string snetio)
    (item : string * list snicaddr) : list string :=
  (item.1 +:+ ":") :: stats_lines ps stats item.1 ++ io_lines ps io_counters item.1
  ++ concat (map (addr_lines ps) item.2) ++ [""].

Definition network_lines (ps : PsutilLib) (host : string)
    (stats : gmap string snicstats) (io_counters : gmap string snetio)
    (items : list (string * list snicaddr)) : list string :=
  [NETWORK_INFO; SECTION_SPAN; "Host                : " +:+ host]
  ++ concat (map (nic_lines ps stats io_counters) items) ++ [SECTION_SPAN].

(** The texts of a list, one after the other. *)
Fixpoint str_concat (l : list string) : string :=
  match l with
  | [] => ""
  | s :: l' => s +:+ str_concat l'
  end.

(** The sections of [main], in the order it runs them, after the blank
    lines it starts with. *)
Definition main_steps (py : PyRuntime) (ps : PsutilLib) (p : Provider) : list (M unit) :=
  [print newline; print_program_header; get_cpu_info py p; get_memory_info py p;
   get_disk_info py p; get_network_info ps p; get_hw_temperatures py p].

(** Running steps one after the other, up to the first that raises. *)
Fixpoint run_steps (steps : list (M unit)) : M unit :=
  match steps with
  | [] => ret tt
  | m :: rest =>
      match outcome m with
      | inl e => (stdout m, inl e)
      | inr _ => let '(w, r) := run_steps rest in (stdout m +:+ w, r)
      end
  end.

(** ** The lines of a sensor group *)

(** The line [print_temp_entry] and [print_fan_entry] write for an entry. *)
Definition temp_line (py : PyRuntime) (name : string) (entry : shwtemp) : string :=
  "        " +:+ ljust 20 (label_or (t_label entry) name) +:+ " "
  +:+ float_str py (t_current entry) +:+ "°C (high="
  +:+ str_opt_float py (t_high entry) +:+ "°C, critical="
  +:+ str_opt_float py (t_critical entry) +:+ "°C)".

Definition fan_line (name : string) (entry : sfan) : string :=
  "        " +:+ ljust 20 (label_or (f_label entry) name) +:+ " "
  +:+ str_int (f_current entry) +:+ " RPM".

(** The lines [print_sensor_group] writes for a group name. *)
Definition group_lines (py : PyRuntime)
    (temps : gmap string (list shwtemp)) (fans : gmap string (list sfan))
    (name : string) : list string :=
  name
  :: match temps !! name with
     | Some entries => "    Temperatures:" :: map (temp_line py name) entries
     | None => []
     end
  ++ match fans !! name with
     | Some entries => "    Fans:" :: map (fan_line name) entries
     | None => []
     end.

(** A run that, when it returns, has written closed lines of which the
    last is [l]. *)
Definition ends_with_line {A} (l : string) (m : M A) : Prop :=
  forall x : A, outcome m = inr x -> exists ls, stdout m = unlines (ls ++ [l]).

(** ** The climate section on the data *)

(** What a sensor read hands the section, on the provider's data: the value
    psutil returns, or the default where psutil lacks the attribute. *)
Definition sensor_read {A} (attr : option (result A)) (dflt v : A) : Prop :=
  attr = Some (inr v) \/ (attr = None /\ v = dflt).

(** The lines of the battery block, from the battery's data: none without a
    battery; the charge; on mains ([power_plugged] is [True]) the status by
    the charge against 100; otherwise the time left. *)
Definition battery_lines (py : PyRuntime) (battery : option sbattery) : list string :=
  match battery with
  | None => []
  | Some b =>
      ["Battery:";
       "    charge:     " +:+ num_str py (num_round py (percent b) 2) +:+ "%"]
      ++ match power_plugged b with
         | Some true =>
             [if Qlt_le_dec (num_value (percent b)) 100
              then "    status:     charging" else "    status:     fully charged";
              "    plugged in: yes"]
         | _ =>
             ["    left:       " +:+ secs2hours (secsleft b);
              "    status:     discharging";
              "    plugged in: no"]
         end
  end.

(** The lines of the climate section when something is there to show. *)
Definition climate_lines (py : PyRuntime)
    (temps : gmap string (list shwtemp)) (fans : gmap string (list sfan))
    (battery : option sbattery) : list string :=
  [CLIMATE_INFO; SECTION_SPAN]
  ++ concat (map (group_lines py temps fans) (set_iter py (dom temps ∪ dom fans)))
  ++ battery_lines py battery ++ [SECTION_SPAN].

(** The spec's reading of the status on mains: fully charged exactly at
    100 percent. *)
Definition spec_fully_charged_at_100 (py : PyRuntime) (b : sbattery) : Prop :=
  writes (print_battery py b)
    ["Battery:";
     "    charge:     " +:+ num_str py (num_round py (percent b) 2) +:+ "%";
     "    status:     fully charged"; "    plugged in: yes"]
  <-> (num_value (percent b) == 100)%Q.

(** Batteries on mains: half charged, full, and one that reports more than
    its design capacity; and one whose platform reports an integer. *)
Definition charging_battery : sbattery :=
  {| percent := PyFloat 50; secsleft := -2; power_plugged := Some true |}.
Definition full_battery : sbattery :=
  {| percent := PyFloat 100; secsleft := -2; power_plugged := Some true |}.
Definition overfull_battery : sbattery :=
  {| percent := PyFloat 100.4; secsleft := -2; power_plugged := Some true |}.
Definition integer_battery : sbattery :=
  {| percent := PyInt 85; secsleft := 3661; power_plugged := None |}.

(** ** Reading a humanized byte count back *)

(** The text before the first occurrence of a separator, and the text after
    it. *)
Fixpoint split_first (sep : ascii) (s : string) : option (string * string) :=
  match s with
  | EmptyString => None
  | String c s' =>
      if Ascii.eqb c sep then Some ("", s')
      else match split_first sep s' with
           | Some (x, y) => Some (String c x, y)
           | None => None
           end
  end.

(** ["<digits>.<digit><suffix>"] as the value in tenths and the suffix. *)
Definition parse_human (s : string) : option (Z * string) :=
  match split_first "."%char s with
  | Some (whole, String d suffix) =>
      w ← parse_nat whole ;
      t ← parse_nat (String d "") ;
      Some (10 * w + t, suffix)
  | _ => None
  end.

(** The spec's reading of the humanizer: the value in the returned text is
    below 1024. *)
Definition spec_shown_below_1024 (beyond : Z -> string) (n : Z) : Prop :=
  exists t suffix,
    parse_human (humanizeBytes beyond n) = Some (t, suffix) /\ t < 10240.

(** ** More machines to run the script on *)

(** The laptop on a platform where [cpu_freq()] is [None]. *)
Definition laptop_no_freq : Provider := {|
  cpu_percent := cpu_percent laptop;
  cpu_count_physical := cpu_count_physical laptop;
  cpu_percent_percpu := cpu_percent_percpu laptop;
  cpu_count_logical := cpu_count_logical laptop;
  cpu_freq := inr None;
  virtual_memory := virtual_memory laptop;
  disk_usage := disk_usage laptop;
  gethostname := gethostname laptop;
  net_if_stats := net_if_stats laptop;
  net_io_counters := net_io_counters laptop;
  net_if_addrs := net_if_addrs laptop;
  sensors_temperatures := sensors_temperatures laptop;
  sensors_fans := sensors_fans laptop;
  sensors_battery := sensors_battery laptop;
|}.

(** Link statistics with a duplex code that is none of the three. *)
Definition odd_stats : snicstats :=
  {| isup := true; duplex := 3; speed := 100; mtu := 1500 |}.

(** The laptop with the odd duplex code on its network card. *)
Definition laptop_odd_duplex : Provider := {|
  cpu_percent := cpu_percent laptop;
  cpu_count_physical := cpu_count_physical laptop;
  cpu_percent_percpu := cpu_percent_percpu laptop;
  cpu_count_logical := cpu_count_logical laptop;
  cpu_freq := cpu_freq laptop;
  virtual_memory := virtual_memory laptop;
  disk_usage := disk_usage laptop;
  gethostname := gethostname laptop;
  net_if_stats := inr {[ "eth0" := odd_stats ]};
  net_io_counters := net_io_counters laptop;
  net_if_addrs := inr [("lo", [lo_addr]); ("eth0", [eth_addr]); ("wlan0", [])];
  sensors_temperatures := sensors_temperatures laptop;
  sensors_fans := sensors_fans laptop;
  sensors_battery := sensors_battery laptop;
|}.

(** * Properties *)

(** ** Strings *)

Lemma str_app_assoc (a b c : string) : (a +:+ b) +:+ c = a +:+ b +:+ c.
Proof. induction a as [|x a IH]; simpl; [reflexivity | now rewrite IH]. Qed.

Lemma str_app_nil_r (a : string) : a +:+ "" = a.
Proof. induction a as [|x a IH]; simpl; [reflexivity | now rewrite IH]. Qed.

Lemma str_length_app (a b : string) :
  String.length (a +:+ b) = (String.length a + String.length b)%nat.
Proof. induction a as [|x a IH]; simpl; [reflexivity | now rewrite IH]. Qed.

Lemma str_app_cancel_l (a b c : string) : a +:+ b = a +:+ c -> b = c.
Proof.
  induction a as [|x a IH]; simpl; intros H; [exact H |].
  injection H as H. now apply IH.
Qed.

Lemma has_char_app c (a b : string) :
  has_char c (a +:+ b) = has_char c a || has_char c b.
Proof.
  induction a as [|x a IH]; simpl; [reflexivity |].
  now rewrite IH, orb_assoc.
Qed.

Lemma has_char_repeat c (x : ascii) n :
  Ascii.eqb x c = false -> has_char c (str_repeat (String x "") n) = false.
Proof. intros Hx. induction n as [|n IH]; simpl; [reflexivity | now rewrite Hx, IH]. Qed.

Lemma unlines_app (l1 l2 : list string) :
  unlines (l1 ++ l2) = unlines l1 +:+ unlines l2.
Proof.
  induction l1 as [|x l1 IH]; simpl; [reflexivity |].
  now rewrite IH, !str_app_assoc.
Qed.

(** *** Splitting at a separator *)

Lemma split_on_nonempty sep s : split_on sep s <> [].
Proof.
  destruct s as [|c s]; simpl; [discriminate |].
  destruct (Ascii.eqb c sep); [discriminate |].
  destruct (split_on sep s); discriminate.
Qed.

Lemma split_on_free sep s : has_char sep s = false -> split_on sep s = [s].
Proof.
  induction s as [|c s IH]; simpl; [reflexivity |].
  intros [Hc Hs]%orb_false_elim. now rewrite Hc, (IH Hs).
Qed.

(** Splitting commutes with cutting the text at one separator. *)
Lemma split_on_cut sep (x y : string) :
  split_on sep (x +:+ String sep y) = split_on sep x ++ split_on sep y.
Proof.
  induction x as [|c x IH]; simpl.
  - now rewrite Ascii.eqb_refl.
  - destruct (Ascii.eqb c sep); [now rewrite IH |].
    rewrite IH. pose proof (split_on_nonempty sep x) as Hne.
    destruct (split_on sep x); [congruence | reflexivity].
Qed.

Lemma removelast_snoc {A} (l : list A) (x : A) : removelast (l ++ [x]) = l.
Proof.
  induction l as [|a l IH]; simpl; [reflexivity |].
  rewrite IH. destruct l; reflexivity.
Qed.

Lemma unlines_snoc (ls : list string) (l : string) :
  unlines (ls ++ [l]) = unlines ls +:+ l +:+ newline.
Proof.
  induction ls as [|a ls IH]; simpl.
  - reflexivity.
  - rewrite IH, str_app_assoc. reflexivity.
Qed.

Lemma last_split_closed (ls : list string) (l : string) :
  has_char (ascii_of_nat 10) l = false ->
  last (split_on (ascii_of_nat 10) (unlines ls +:+ l)) = Some l.
Proof.
  intros Hl. destruct ls as [|a ls' _] using rev_ind.
  - simpl. now rewrite (split_on_free _ _ Hl).
  - rewrite unlines_snoc, !str_app_assoc.
    change (newline +:+ l) with (String (ascii_of_nat 10) l).
    rewrite <- str_app_assoc, split_on_cut, (split_on_free _ _ Hl).
    now rewrite last_snoc.
Qed.

(** A text of closed lines, the last of them without a newline inside,
    ends with that line. *)
Lemma final_line_unlines (ls : list string) (l : string) :
  has_char (ascii_of_nat 10) l = false ->
  final_line (unlines (ls ++ [l])) = Some l.
Proof.
  intros Hl. unfold final_line, lines.
  rewrite unlines_snoc, <- str_app_assoc. unfold newline.
  rewrite split_on_cut. simpl (split_on _ "").
  rewrite removelast_snoc.
  now apply last_split_closed.
Qed.

(** ** Decimal numbers *)

Lemma small_cases (P : Z -> Prop) :
  (forall n : nat, (n < 60)%nat -> P (Z.of_nat n)) ->
  forall m, 0 <= m < 60 -> P m.
Proof.
  intros H m Hm. rewrite <- (Z2Nat.id m) by lia. apply H. lia.
Qed.

Lemma uint_string_colon_free d : has_char ":" (NilEmpty.string_of_uint d) = false.
Proof. induction d; simpl; auto. Qed.

Lemma digits_colon_free z : has_char ":" (digits z) = false.
Proof.
  unfold digits, NilZero.string_of_uint.
  destruct (N.to_uint (Z.to_N z)); try reflexivity; apply uint_string_colon_free.
Qed.

Lemma N_to_uint_nonnil n : N.to_uint n <> Decimal.Nil.
Proof.
  destruct n as [|p]; simpl; [discriminate |].
  apply DecimalPos.Unsigned.to_uint_nonnil.
Qed.

Lemma parse_nat_digits z : 0 <= z -> parse_nat (digits z) = Some z.
Proof.
  intros Hz. unfold parse_nat, digits.
  rewrite NilZero.usu by apply N_to_uint_nonnil. simpl.
  now rewrite DecimalN.Unsigned.of_to, Z2N.id.
Qed.

(** Leading zeros do not change the number read. *)
Lemma parse_nat_zeros n (s : string) z :
  parse_nat s = Some z -> parse_nat (str_repeat "0" n +:+ s) = Some z.
Proof.
  intros Hs. induction n as [|n IH]; simpl; [exact Hs |].
  revert IH. unfold parse_nat, NilZero.uint_of_string.
  destruct (str_repeat "0" n +:+ s) as [|c t] eqn:E; [discriminate |].
  change (NilEmpty.uint_of_string (String "0" (String c t)))
    with (uint_of_char "0" (NilEmpty.uint_of_string (String c t))).
  destruct (NilEmpty.uint_of_string (String c t)) as [u|]; [| discriminate].
  intros [= <-]. reflexivity.
Qed.

Lemma fmt_0d_nonneg w z :
  0 <= z -> fmt_0d w z = str_repeat "0" (w - String.length (digits z)) +:+ digits z.
Proof.
  intros Hz. unfold fmt_0d. rewrite Z.abs_eq by exact Hz.
  destruct (Z.ltb_spec z 0); [lia | reflexivity].
Qed.

Lemma parse_nat_fmt_0d w z : 0 <= z -> parse_nat (fmt_0d w z) = Some z.
Proof.
  intros Hz. rewrite fmt_0d_nonneg by exact Hz.
  apply parse_nat_zeros, parse_nat_digits, Hz.
Qed.

Lemma fmt_0d_colon_free w z : 0 <= z -> has_char ":" (fmt_0d w z) = false.
Proof.
  intros Hz. rewrite fmt_0d_nonneg by exact Hz.
  now rewrite has_char_app, has_char_repeat, digits_colon_free.
Qed.

(** Two digits for a minute or a second. *)
Lemma fmt_0d_two_digits m : 0 <= m < 60 -> String.length (fmt_0d 2 m) = 2%nat.
Proof.
  revert m. apply small_cases. intros n Hn.
  do 60 (destruct n as [|n]; [reflexivity |]). lia.
Qed.

Lemma str_int_nonneg z : 0 <= z -> str_int z = digits z.
Proof. intros Hz. unfold str_int. destruct (Z.ltb_spec z 0); [lia | reflexivity]. Qed.

(** ** The seconds-to-clock converter *)

Lemma secs2hours_eq secs :
  secs2hours secs =
    str_int (secs / 3600) +:+ ":" +:+ fmt_0d 2 (secs / 60 mod 60)
    +:+ ":" +:+ fmt_0d 2 (secs mod 60).
Proof.
  unfold secs2hours. now rewrite Z.div_div by lia.
Qed.

(** C4: [secs2hours] prints the quotient by 3600 in full, then the minutes
    and the seconds of the floor divisions by 60, each on exactly two
    digits; 3661, 59 and 3600 seconds read 1:01:01, 0:00:59 and 1:00:00. *)
Theorem secs2hours_clock_format :
  (forall secs : Z,
     secs2hours secs =
       str_int (secs / 3600) +:+ ":" +:+ fmt_0d 2 (secs / 60 mod 60)
       +:+ ":" +:+ fmt_0d 2 (secs mod 60)
     /\ String.length (fmt_0d 2 (secs / 60 mod 60)) = 2%nat
     /\ String.length (fmt_0d 2 (secs mod 60)) = 2%nat)
  /\ secs2hours 3661 = "1:01:01"
  /\ secs2hours 59 = "0:00:59"
  /\ secs2hours 3600 = "1:00:00".
Proof.
  split; [| repeat split; reflexivity].
  intros secs. split; [apply secs2hours_eq |].
  split; apply fmt_0d_two_digits; apply Z.mod_pos_bound; lia.
Qed.

(** C10: for a non-negative number of seconds the clock reads back as
    hours, minutes below 60 and seconds below 60 that add up to the input. *)
Theorem secs2hours_roundtrip (s : Z) :
  0 <= s ->
  exists hh mm ss : Z,
    parse_clock (secs2hours s) = Some (hh, mm, ss)
    /\ 0 <= mm < 60 /\ 0 <= ss < 60
    /\ hh * 3600 + mm * 60 + ss = s.
Proof.
  intros Hs.
  assert (Hh : 0 <= s / 3600) by (apply Z.div_pos; lia).
  assert (Hm : 0 <= s / 60 mod 60 < 60) by (apply Z.mod_pos_bound; lia).
  assert (Hx : 0 <= s mod 60 < 60) by (apply Z.mod_pos_bound; lia).
  exists (s / 3600), (s / 60 mod 60), (s mod 60).
  split; [| split; [exact Hm | split; [exact Hx |]]].
  - rewrite secs2hours_eq, str_int_nonneg by exact Hh.
    unfold parse_clock, split_colon.
    change (digits (s / 3600) +:+ ":" +:+ fmt_0d 2 (s / 60 mod 60)
            +:+ ":" +:+ fmt_0d 2 (s mod 60))
      with (digits (s / 3600)
            +:+ String ":" (fmt_0d 2 (s / 60 mod 60) +:+ String ":" (fmt_0d 2 (s mod 60)))).
    rewrite split_on_cut, split_on_cut.
    rewrite !split_on_free
      by (apply digits_colon_free || (apply fmt_0d_colon_free; lia)).
    cbn [app].
    rewrite parse_nat_digits by exact Hh.
    rewrite !parse_nat_fmt_0d by lia.
    reflexivity.
  - pose proof (Z.div_mod s 60 ltac:(lia)) as E1.
    pose proof (Z.div_mod (s / 60) 60 ltac:(lia)) as E2.
    rewrite Z.div_div in E2 by lia. change (60 * 60) with 3600 in E2. lia.
Qed.

Lemma secs2hours_roundtrip_witness :
  0 <= 3661 /\
  exists hh mm ss : Z,
    parse_clock (secs2hours 3661) = Some (hh, mm, ss)
    /\ 0 <= mm < 60 /\ 0 <= ss < 60
    /\ hh * 3600 + mm * 60 + ss = 3661.
Proof. split; [lia | apply (secs2hours_roundtrip 3661); lia]. Defined.

(** A negative input, as the sentinels of an unknown or unlimited battery
    time are, gives a signed hour field, which does not read back. *)
Lemma secs2hours_negative_sentinel :
  secs2hours (-1) = "-1:59:59" /\ parse_clock (secs2hours (-1)) = None.
Proof. split; reflexivity. Qed.

(** ** The label converters *)

Section Labels.
Variable ps : PsutilLib.

Lemma af_map_lookup (fam : Z) :
  af_map ps !! fam =
    if decide (AF_LINK ps = fam) then Some "MAC"
    else if decide (AF_INET6 ps = fam) then Some "IPv6"
    else if decide (AF_INET ps = fam) then Some "IPv4"
    else None.
Proof.
  unfold af_map. rewrite !lookup_insert, lookup_empty.
  repeat case_decide; reflexivity.
Qed.

Lemma duplex_map_lookup (code : Z) :
  duplex_map ps !! code =
    if decide (NIC_DUPLEX_UNKNOWN ps = code) then Some "?"
    else if decide (NIC_DUPLEX_HALF ps = code) then Some "half"
    else if decide (NIC_DUPLEX_FULL ps = code) then Some "full"
    else None.
Proof.
  unfold duplex_map. rewrite !lookup_insert, lookup_empty.
  repeat case_decide; reflexivity.
Qed.

(** Whatever the codes are, a code of the table gets one of its labels. *)
Lemma duplex_map_getitem_known (code : Z) :
  code ∈ [NIC_DUPLEX_FULL ps; NIC_DUPLEX_HALF ps; NIC_DUPLEX_UNKNOWN ps] ->
  exists s, duplex_map_getitem ps code = ret s /\ s ∈ ["full"; "half"; "?"].
Proof.
  intros Hc. unfold duplex_map_getitem. rewrite duplex_map_lookup.
  repeat case_decide; try (eexists; split; [reflexivity | repeat constructor]).
  apply list_elem_of_In in Hc. simpl in Hc. intuition congruence.
Qed.
End Labels.

(** C9: with the three family codes distinct, [af_map.get(family, family)]
    gives IPv4, IPv6 and MAC for them, and hands any other code back as it
    came. *)
Theorem af_map_get_labels (ps : PsutilLib) :
  AF_INET ps <> AF_INET6 ps -> AF_INET ps <> AF_LINK ps -> AF_INET6 ps <> AF_LINK ps ->
  af_map_get ps (AF_INET ps) = AfName "IPv4"
  /\ af_map_get ps (AF_INET6 ps) = AfName "IPv6"
  /\ af_map_get ps (AF_LINK ps) = AfName "MAC"
  /\ forall code : Z,
       code <> AF_INET ps -> code <> AF_INET6 ps -> code <> AF_LINK ps ->
       af_map_get ps code = AfRaw code.
Proof.
  intros H46 H4L H6L. unfold af_map_get.
  repeat split; [| | | intros code H4 H6 HL];
    rewrite af_map_lookup; repeat case_decide; congruence.
Qed.

Lemma af_map_get_labels_witness :
  af_map_get linux_psutil 2 = AfName "IPv4"
  /\ af_map_get linux_psutil 10 = AfName "IPv6"
  /\ af_map_get linux_psutil 17 = AfName "MAC"
  /\ forall code : Z,
       code <> 2 -> code <> 10 -> code <> 17 ->
       af_map_get linux_psutil code = AfRaw code.
Proof. apply (af_map_get_labels linux_psutil); simpl; lia. Defined.

(** C3, as the code has it: with the three duplex codes distinct, the
    subscript gives full, half and ? for them, and raises [KeyError] for any
    other code. *)
Theorem duplex_map_getitem_enum (ps : PsutilLib) :
  NIC_DUPLEX_FULL ps <> NIC_DUPLEX_HALF ps ->
  NIC_DUPLEX_FULL ps <> NIC_DUPLEX_UNKNOWN ps ->
  NIC_DUPLEX_HALF ps <> NIC_DUPLEX_UNKNOWN ps ->
  duplex_map_getitem ps (NIC_DUPLEX_FULL ps) = ret "full"
  /\ duplex_map_getitem ps (NIC_DUPLEX_HALF ps) = ret "half"
  /\ duplex_map_getitem ps (NIC_DUPLEX_UNKNOWN ps) = ret "?"
  /\ forall code : Z,
       code <> NIC_DUPLEX_FULL ps -> code <> NIC_DUPLEX_HALF ps ->
       code <> NIC_DUPLEX_UNKNOWN ps ->
       duplex_map_getitem ps code = raise (KeyError code).
Proof.
  intros Hfh Hfu Hhu. unfold duplex_map_getitem.
  repeat split; [| | | intros code Hf Hh Hu];
    rewrite duplex_map_lookup; repeat case_decide; congruence.
Qed.

Lemma duplex_map_getitem_enum_witness :
  duplex_map_getitem linux_psutil 2 = ret "full"
  /\ duplex_map_getitem linux_psutil 1 = ret "half"
  /\ duplex_map_getitem linux_psutil 0 = ret "?"
  /\ forall code : Z,
       code <> 2 -> code <> 1 -> code <> 0 ->
       duplex_map_getitem linux_psutil code = raise (KeyError code).
Proof. apply (duplex_map_getitem_enum linux_psutil); simpl; lia. Defined.

(** The converter is not total: on Linux the code 3 raises. *)
Lemma duplex_map_getitem_raises :
  duplex_map_getitem linux_psutil 3 = raise (KeyError 3)
  /\ ~ spec_duplex_total linux_psutil.
Proof.
  split; [reflexivity |].
  intros H. destruct (H 3) as [s [E _]]. vm_compute in E. discriminate.
Qed.

(** ** The writer monad *)

Lemma bind_unfold {A B} (m : M A) (f : A -> M B) :
  m ≫= f =
    match outcome m with
    | inl e => (stdout m, inl e)
    | inr x => (stdout m +:+ stdout (f x), outcome (f x))
    end.
Proof.
  destruct m as [w [e|x]]; simpl; [reflexivity |].
  unfold mbind, M_bind, bind. destruct (f x) as [w' r]. reflexivity.
Qed.

Lemma outcome_bind {A B} (m : M A) (f : A -> M B) :
  outcome (m ≫= f) =
    match outcome m with inl e => inl e | inr x => outcome (f x) end.
Proof. rewrite bind_unfold. destruct (outcome m); reflexivity. Qed.

Lemma stdout_bind_ok {A B} (m : M A) (f : A -> M B) x :
  outcome m = inr x -> stdout (m ≫= f) = stdout m +:+ stdout (f x).
Proof. intros H. rewrite bind_unfold, H. reflexivity. Qed.

Lemma call_bind {A B} (x : A) (f : A -> M B) : call (inr x) ≫= f = f x.
Proof. rewrite bind_unfold. simpl. now destruct (f x). Qed.

Lemma stdout_pair {A} (w : string) (r : result A) : stdout (w, r) = w.
Proof. reflexivity. Qed.

Lemma ret_bind {A B} (x : A) (f : A -> M B) : ret x ≫= f = f x.
Proof. exact (call_bind x f). Qed.

Lemma writes_print s : writes (print s) [s].
Proof. exists tt. reflexivity. Qed.

Lemma writes_ret {A} (x : A) : writes (mret x) [].
Proof. exists x. reflexivity. Qed.

Lemma writes_bind {A B} (m : M A) (f : A -> M B) l1 l2 :
  writes m l1 -> (forall x, writes (f x) l2) -> writes (m ≫= f) (l1 ++ l2).
Proof.
  intros [x ->] Hf. destruct (Hf x) as [y Hy].
  exists y. rewrite bind_unfold. simpl. rewrite Hy. simpl.
  now rewrite unlines_app.
Qed.

Lemma writes_print_bind {B} s (k : M B) ls :
  writes k ls -> writes (print s ;; k) (s :: ls).
Proof. intros H. apply (writes_bind (print s) _ [s] ls); [apply writes_print | auto]. Qed.

(** A line written in two pieces. *)
Lemma writes_noend_print s1 s2 : writes (print_noend s1 ;; print s2) [s1 +:+ s2].
Proof.
  exists tt. rewrite bind_unfold. simpl. now rewrite !str_app_assoc.
Qed.

Lemma writes_noend_print_bind {B} s1 s2 (k : M B) ls :
  writes k ls -> writes (print_noend s1 ;; print s2 ;; k) ((s1 +:+ s2) :: ls).
Proof.
  intros [x ->]. exists x. rewrite !bind_unfold. simpl.
  now rewrite !str_app_assoc.
Qed.

Lemma writes_for_each {A} (l : list A) (body : A -> M unit) (f : A -> list string) :
  (forall x, x ∈ l -> writes (body x) (f x)) ->
  writes (for_each l body) (concat (map f l)).
Proof.
  induction l as [|a l IH]; intros H; simpl.
  - apply writes_ret.
  - apply writes_bind; [apply H; constructor |].
    intros _. apply IH. intros x Hx. apply H. now constructor.
Qed.

Lemma writes_functional {A} (m : M A) l1 l2 :
  writes m l1 -> writes m l2 -> unlines l1 = unlines l2.
Proof.
  intros [x E1] [y E2]. rewrite E1 in E2.
  apply (f_equal fst) in E2. exact E2.
Qed.

Lemma writes_stdout {A} (m : M A) ls : writes m ls -> stdout m = unlines ls.
Proof. now intros [x ->]. Qed.

Lemma writes_outcome (m : M unit) ls : writes m ls -> outcome m = inr tt.
Proof. now intros [[] ->]. Qed.

(** *** Closed lines and the bottom banner *)

Lemma closed_print s : closed_lines (print s).
Proof. intros x _. exists [s]. reflexivity. Qed.

Lemma writes_closed {A} (m : M A) ls : writes m ls -> closed_lines m.
Proof. intros [y ->] x _. now exists ls. Qed.

Lemma closed_ret {A} (a : A) : closed_lines (mret a).
Proof. intros x _. exists []. reflexivity. Qed.

Lemma closed_call {A} (r : result A) : closed_lines (call r).
Proof. intros x _. exists []. reflexivity. Qed.

Lemma closed_raise {A} e : closed_lines (@raise A e).
Proof. intros x H. discriminate. Qed.

Lemma closed_bind {A B} (m : M A) (f : A -> M B) :
  closed_lines m -> (forall x, closed_lines (f x)) -> closed_lines (m ≫= f).
Proof.
  intros Hm Hf y Hy. rewrite outcome_bind in Hy.
  destruct (outcome m) as [e|x] eqn:Em; [discriminate |].
  destruct (Hm x Em) as [l1 E1]. destruct (Hf x y Hy) as [l2 E2].
  exists (l1 ++ l2). rewrite (stdout_bind_ok _ _ x Em), E1, E2.
  now rewrite unlines_app.
Qed.

Lemma closed_for_each {A} (l : list A) (body : A -> M unit) :
  (forall x, closed_lines (body x)) -> closed_lines (for_each l body).
Proof.
  intros H. induction l as [|a l IH]; simpl.
  - apply closed_ret.
  - apply closed_bind; auto.
Qed.

Lemma banner_print : ends_with_banner (print SECTION_SPAN).
Proof. intros x _. exists []. reflexivity. Qed.

Lemma banner_bind {A B} (m : M A) (f : A -> M B) :
  closed_lines m -> (forall x, ends_with_banner (f x)) -> ends_with_banner (m ≫= f).
Proof.
  intros Hm Hf y Hy. rewrite outcome_bind in Hy.
  destruct (outcome m) as [e|x] eqn:Em; [discriminate |].
  destruct (Hm x Em) as [l1 E1]. destruct (Hf x y Hy) as [l2 E2].
  exists (l1 ++ l2). rewrite (stdout_bind_ok _ _ x Em), E1, E2.
  now rewrite <- unlines_app, app_assoc.
Qed.

Lemma SECTION_SPAN_one_line : has_char (ascii_of_nat 10) SECTION_SPAN = false.
Proof. reflexivity. Qed.

(** The last line of a run that ends with the banner is the banner. *)
Lemma ends_with_banner_final {A} (m : M A) x :
  ends_with_banner m -> outcome m = inr x ->
  final_line (stdout m) = Some SECTION_SPAN.
Proof.
  intros H Hx. destruct (H x Hx) as [ls ->].
  apply final_line_unlines, SECTION_SPAN_one_line.
Qed.

Lemma closed_after_print pre s : closed_after pre (print s).
Proof. intros x _. exists [pre +:+ s]. simpl. now rewrite !str_app_assoc. Qed.

Lemma closed_after_bind {A B} pre (m : M A) (f : A -> M B) :
  closed_after pre m -> (forall x, closed_lines (f x)) -> closed_after pre (m ≫= f).
Proof.
  intros Hm Hf y Hy. rewrite outcome_bind in Hy.
  destruct (outcome m) as [e|x] eqn:Em; [discriminate |].
  destruct (Hm x Em) as [l1 E1]. destruct (Hf x y Hy) as [l2 E2].
  exists (l1 ++ l2). rewrite (stdout_bind_ok _ _ x Em), <- str_app_assoc, E1, E2.
  now rewrite unlines_app.
Qed.

(** A step that writes nothing leaves the line open. *)
Lemma closed_after_silent {A B} pre (m : M A) (f : A -> M B) :
  stdout m = "" -> (forall x, closed_after pre (f x)) -> closed_after pre (m ≫= f).
Proof.
  intros Hm Hf y Hy. rewrite outcome_bind in Hy.
  destruct (outcome m) as [e|x] eqn:Em; [discriminate |].
  destruct (Hf x y Hy) as [ls E]. exists ls.
  now rewrite (stdout_bind_ok _ _ x Em), Hm.
Qed.

Lemma closed_noend {B} s (k : M B) :
  closed_after s k -> closed_lines (print_noend s ;; k).
Proof.
  intros Hk y Hy. rewrite outcome_bind in Hy. simpl in Hy.
  destruct (Hk y Hy) as [ls E]. exists ls.
  now rewrite (stdout_bind_ok _ _ tt).
Qed.

Lemma duplex_map_getitem_silent ps code : stdout (duplex_map_getitem ps code) = "".
Proof. unfold duplex_map_getitem. now destruct (duplex_map ps !! code). Qed.

Lemma closed_freq_getitem st i : closed_lines (freq_getitem st i).
Proof.
  destruct st as [[[c mn] mx]|]; simpl; [| apply closed_raise].
  destruct i as [|[|i]]; apply closed_ret.
Qed.

Lemma closed_read_or {A} (attr : option (result A)) dflt : closed_lines (read_or attr dflt).
Proof. destruct attr; [apply closed_call | apply closed_ret]. Qed.

(** One step of the analysis of a section: a bind, a print, a call, a loop
    or a case distinction of the code. *)
Ltac report_step :=
  lazymatch goal with
  | |- ends_with_banner (print SECTION_SPAN) => apply banner_print
  | |- ends_with_banner (_ ≫= _) => apply banner_bind; [| intros ?]
  | |- closed_lines (print_noend _ ≫= _) => apply closed_noend
  | |- closed_lines (_ ≫= _) => apply closed_bind; [| intros ?]
  | |- closed_lines (print _) => apply closed_print
  | |- closed_lines (ret _) => apply closed_ret
  | |- closed_lines (call _) => apply closed_call
  | |- closed_lines (raise _) => apply closed_raise
  | |- closed_lines (freq_getitem _ _) => apply closed_freq_getitem
  | |- closed_lines (read_or _ _) => apply closed_read_or
  | |- closed_lines (for_each _ _) => apply closed_for_each; intros ?
  | |- closed_after _ (print _) => apply closed_after_print
  | |- closed_after _ (duplex_map_getitem _ _ ≫= _) =>
      apply closed_after_silent; [apply duplex_map_getitem_silent | intros ?]
  | |- closed_after _ (_ ≫= _) => apply closed_after_bind; [| intros ?]
  | |- context [match ?x with _ => _ end] => destruct x
  end.

Ltac report := repeat (cbv zeta; report_step).

(** *** Every section but one path of the last ends with the banner *)

Lemma print_program_header_banner : ends_with_banner print_program_header.
Proof. unfold print_program_header. report. Qed.

Lemma closed_print_section_header name : closed_lines (print_section_header name).
Proof. unfold print_section_header. report. Qed.

Lemma get_cpu_info_banner py p : ends_with_banner (get_cpu_info py p).
Proof.
  unfold get_cpu_info.
  apply banner_bind; [apply closed_print_section_header | intros _]. report.
Qed.

Lemma get_memory_info_banner py p : ends_with_banner (get_memory_info py p).
Proof.
  unfold get_memory_info.
  apply banner_bind; [apply closed_print_section_header | intros _]. report.
Qed.

Lemma get_disk_info_banner py p : ends_with_banner (get_disk_info py p).
Proof.
  unfold get_disk_info.
  apply banner_bind; [apply closed_print_section_header | intros _]. report.
Qed.

Lemma closed_print_addr ps addr : closed_lines (print_addr ps addr).
Proof. unfold print_addr. report. Qed.

Lemma closed_print_nic ps stats io item : closed_lines (print_nic ps stats io item).
Proof.
  unfold print_nic. destruct item as [nic addrs].
  apply closed_bind; [apply closed_print | intros _].
  apply closed_bind; [destruct (stats !! nic); report | intros _].
  apply closed_bind; [destruct (io !! nic); report | intros _].
  apply closed_bind; [| intros _; apply closed_print].
  apply closed_for_each. intros a. apply closed_print_addr.
Qed.

Lemma get_network_info_banner ps p : ends_with_banner (get_network_info ps p).
Proof.
  unfold get_network_info.
  apply banner_bind; [apply closed_print_section_header | intros _].
  apply banner_bind; [apply closed_print | intros _].
  do 3 (apply banner_bind; [apply closed_call | intros ?]).
  apply banner_bind; [| intros _; apply banner_print].
  apply closed_for_each. intros item. apply closed_print_nic.
Qed.

(** ** The network section *)

Lemma spec_field_lines_truthy label field :
  spec_field_lines label field =
    if str_truthy field then [label +:+ default "" field] else [].
Proof. destruct field as [[|c v]|]; reflexivity. Qed.

Lemma writes_optional_field label field :
  writes (if str_truthy field then print (label +:+ default "" field) else ret tt)
         (spec_field_lines label field).
Proof.
  rewrite spec_field_lines_truthy.
  destruct (str_truthy field); [apply writes_print | apply writes_ret].
Qed.

Lemma writes_print_addr ps addr : writes (print_addr ps addr) (addr_lines ps addr).
Proof.
  unfold print_addr, addr_lines, address_line.
  rewrite <- (str_app_assoc "    " (fmt_af4 _) _).
  apply writes_noend_print_bind.
  apply writes_bind; [apply writes_optional_field | intros _].
  apply writes_bind; [apply writes_optional_field | intros _].
  apply writes_optional_field.
Qed.


Lemma writes_print_nic ps stats io nic addrs :
  (forall st, stats !! nic = Some st -> is_Some (duplex_map ps !! duplex st)) ->
  writes (print_nic ps stats io (nic, addrs)) (nic_lines ps stats io (nic, addrs)).
Proof.
  intros Hd. unfold print_nic, nic_lines. simpl fst. simpl snd.
  apply writes_print_bind.
  apply writes_bind; [| intros _; apply writes_bind; [| intros _; apply writes_bind]].
  - unfold stats_lines. destruct (stats !! nic) as [st|] eqn:Est; [| apply writes_ret].
    destruct (Hd st eq_refl) as [d Ed].
    unfold duplex_map_getitem. rewrite Ed. exists tt.
    rewrite !bind_unfold. simpl. now rewrite !str_app_assoc.
  - unfold io_lines. destruct (io !! nic) as [c|]; [| apply writes_ret].
    apply writes_noend_print_bind. apply writes_noend_print.
  - apply writes_for_each. intros a _. apply writes_print_addr.
  - intros _. apply writes_print.
Qed.

(** When its reads return and the duplex codes are those of the table, the
    network section writes the lines of its interfaces between the header
    and the banner. *)
Lemma get_network_info_lines ps p stats io items :
  net_if_stats p = inr stats -> net_io_counters p = inr io ->
  net_if_addrs p = inr items ->
  (forall nic st, stats !! nic = Some st -> is_Some (duplex_map ps !! duplex st)) ->
  writes (get_network_info ps p) (network_lines ps (gethostname p) stats io items).
Proof.
  intros Es Ei Ea Hd. unfold get_network_info, network_lines, print_section_header.
  rewrite Es, Ei, Ea.
  apply (writes_bind _ _ [NETWORK_INFO; SECTION_SPAN]);
    [apply writes_print_bind, writes_print | intros _].
  apply writes_print_bind.
  rewrite !call_bind.
  apply writes_bind; [| intros _; apply writes_print].
  apply writes_for_each. intros [nic addrs] _.
  apply writes_print_nic. intros st. apply Hd.
Qed.

(** ** The climate section *)

Lemma float_lt_int_spec (x : Q) (n : Z) :
  float_lt_int x n = true <-> (x < inject_Z n)%Q.
Proof.
  unfold float_lt_int, Qlt. simpl. rewrite Z.ltb_lt. lia.
Qed.

Lemma dict_truthy_empty {V} (d : gmap string V) : dict_truthy d = false <-> d = ∅.
Proof.
  unfold dict_truthy. rewrite negb_false_iff, bool_decide_eq_true.
  apply dom_empty_iff_L.
Qed.

Lemma outcome_seq_ok (m k : M unit) :
  outcome m = inr tt -> outcome k = inr tt -> outcome (m ;; k) = inr tt.
Proof. intros Hm Hk. now rewrite outcome_bind, Hm. Qed.

Lemma outcome_for_each_ok {A} (l : list A) (body : A -> M unit) :
  (forall x, outcome (body x) = inr tt) -> outcome (for_each l body) = inr tt.
Proof.
  intros H. induction l as [|a l IH]; simpl; [reflexivity |].
  now rewrite outcome_bind, H.
Qed.

Lemma outcome_print_sensor_group py temps fans name :
  outcome (print_sensor_group py temps fans name) = inr tt.
Proof.
  unfold print_sensor_group.
  apply outcome_seq_ok; [reflexivity |].
  apply outcome_seq_ok.
  - destruct (temps !! name) as [ts|]; [| reflexivity].
    apply outcome_seq_ok; [reflexivity |].
    apply outcome_for_each_ok. reflexivity.
  - destruct (fans !! name) as [fs|]; [| reflexivity].
    apply outcome_seq_ok; [reflexivity |].
    apply outcome_for_each_ok. reflexivity.
Qed.

Lemma num_lt_int_spec (n : pynum) (k : Z) :
  num_lt_int n k = true <-> (num_value n < inject_Z k)%Q.
Proof.
  destruct n as [z|x]; simpl; [| apply float_lt_int_spec].
  unfold Qlt. simpl. rewrite Z.ltb_lt. lia.
Qed.

(** The battery block, line by line, against the lines read off the
    battery's data. *)
Lemma writes_print_battery py b :
  writes (print_battery py b) (battery_lines py (Some b)).
Proof.
  unfold print_battery, battery_lines. do 2 apply writes_print_bind.
  destruct (power_plugged b) as [[|]|]; simpl plugged_truthy; cbv iota.
  - destruct (Qlt_le_dec (num_value (percent b)) 100) as [Hlt|Hge].
    + apply (num_lt_int_spec _ 100) in Hlt. rewrite Hlt.
      apply writes_print_bind, writes_print.
    + destruct (num_lt_int (percent b) 100) eqn:E.
      * apply (num_lt_int_spec _ 100) in E.
        exfalso. exact (Qlt_not_le _ _ E Hge).
      * apply writes_print_bind, writes_print.
  - do 2 apply writes_print_bind. apply writes_print.
  - do 2 apply writes_print_bind. apply writes_print.
Qed.

Lemma outcome_print_battery py b : outcome (print_battery py b) = inr tt.
Proof. exact (writes_outcome _ _ (writes_print_battery py b)). Qed.

(** The two status lines make different texts. *)
Lemma status_texts_differ (charge : string) :
  unlines ["Battery:"; charge; "    status:     charging"; "    plugged in: yes"]
  <> unlines ["Battery:"; charge; "    status:     fully charged"; "    plugged in: yes"].
Proof.
  simpl. intros H. injection H as H. apply str_app_cancel_l in H. discriminate.
Qed.

Lemma concat_map_singleton {A B} (g : A -> B) (l : list A) :
  concat (map (fun x => [g x]) l) = map g l.
Proof. induction l as [|a l IH]; simpl; [reflexivity | now rewrite IH]. Qed.

Lemma writes_print_sensor_group py temps fans name :
  writes (print_sensor_group py temps fans name) (group_lines py temps fans name).
Proof.
  unfold print_sensor_group, group_lines.
  apply writes_print_bind. apply writes_bind; [| intros _].
  - destruct (temps !! name) as [entries|]; [| apply writes_ret].
    apply writes_print_bind.
    rewrite <- (concat_map_singleton (temp_line py name)).
    apply writes_for_each. intros e _. apply writes_print.
  - destruct (fans !! name) as [entries|]; [| apply writes_ret].
    apply writes_print_bind.
    rewrite <- (concat_map_singleton (fan_line name)).
    apply writes_for_each. intros e _. apply writes_print.
Qed.

(** The text of the climate section once the three reads are in: the
    explanatory line alone when all three are empty or absent, otherwise the
    sensor groups, the battery block and the banner. *)
Lemma render_climate_stdout py temps fans battery :
  stdout (render_climate py temps fans battery) =
    if negb (dict_truthy temps || dict_truthy fans || battery_truthy battery)
    then unlines [cannot_read_msg]
    else stdout (for_each (set_iter py (dom temps ∪ dom fans))
                   (print_sensor_group py temps fans))
         +:+ match battery with
             | Some b => stdout (print_battery py b)
             | None => ""
             end
         +:+ unlines [SECTION_SPAN].
Proof.
  unfold render_climate.
  destruct (negb _); [reflexivity |].
  rewrite (stdout_bind_ok _ _ tt)
    by (apply outcome_for_each_ok; intros; apply outcome_print_sensor_group).
  f_equal.
  destruct battery as [b|].
  - now rewrite (stdout_bind_ok _ _ tt) by apply outcome_print_battery.
  - reflexivity.
Qed.

Lemma all_absent_iff (temps : gmap string (list shwtemp))
    (fans : gmap string (list sfan)) (battery : option sbattery) :
  negb (dict_truthy temps || dict_truthy fans || battery_truthy battery) = true
  <-> temps = ∅ /\ fans = ∅ /\ battery = None.
Proof.
  rewrite negb_true_iff, !orb_false_iff, !dict_truthy_empty.
  destruct battery; simpl; intuition congruence.
Qed.

Lemma get_hw_temperatures_render py p temps fans battery :
  read_or (sensors_temperatures p) ∅ = ret temps ->
  read_or (sensors_fans p) ∅ = ret fans ->
  read_or (sensors_battery p) None = ret battery ->
  get_hw_temperatures py p =
    (unlines [CLIMATE_INFO; SECTION_SPAN] +:+ stdout (render_climate py temps fans battery),
     outcome (render_climate py temps fans battery)).
Proof.
  intros Et Ef Eb. unfold get_hw_temperatures. rewrite Et, Ef, Eb.
  rewrite bind_unfold.
  change (outcome (print_section_header CLIMATE_INFO)) with (@inr exn _ tt).
  cbv iota.
  change (stdout (print_section_header CLIMATE_INFO))
    with (unlines [CLIMATE_INFO; SECTION_SPAN]).
  now rewrite !ret_bind.
Qed.

Lemma sensor_read_read_or {A} (attr : option (result A)) (dflt v : A) :
  sensor_read attr dflt v -> read_or attr dflt = ret v.
Proof. intros [-> | [-> ->]]; reflexivity. Qed.

(** With something to show, the section after its header writes the sensor
    groups, the battery block and the banner. *)
Lemma writes_render_climate py temps fans battery :
  ~ (temps = ∅ /\ fans = ∅ /\ battery = None) ->
  writes (render_climate py temps fans battery)
    (concat (map (group_lines py temps fans) (set_iter py (dom temps ∪ dom fans)))
     ++ battery_lines py battery ++ [SECTION_SPAN]).
Proof.
  intros Hn. unfold render_climate.
  destruct (negb _) eqn:Hall; [apply all_absent_iff in Hall; contradiction |].
  apply writes_bind; [| intros _; apply writes_bind; [| intros _; apply writes_print]].
  - apply writes_for_each. intros name _. apply writes_print_sensor_group.
  - destruct battery as [b|]; [apply writes_print_battery | apply writes_ret].
Qed.

(** No line of a sensor group or of the battery block is the explanatory
    line, unless a group bears that very name. *)
Lemma cannot_read_not_in_group py temps fans name :
  name <> cannot_read_msg -> ~ In cannot_read_msg (group_lines py temps fans name).
Proof.
  intros Hname. unfold group_lines. simpl. rewrite in_app_iff.
  intros [H | [H | H]]; [congruence | |].
  - destruct (temps !! name) as [es|]; [| destruct H].
    destruct H as [H | H]; [discriminate |].
    apply in_map_iff in H. destruct H as (e & H & _). discriminate.
  - destruct (fans !! name) as [es|]; [| destruct H].
    destruct H as [H | H]; [discriminate |].
    apply in_map_iff in H. destruct H as (e & H & _). discriminate.
Qed.

Lemma cannot_read_not_in_battery py battery :
  ~ In cannot_read_msg (battery_lines py battery).
Proof.
  destruct battery as [b|]; simpl; [| tauto].
  destruct (power_plugged b) as [[|]|];
    try destruct (Qlt_le_dec (num_value (percent b)) 100);
    simpl; intros H; repeat (destruct H as [H | H]; [discriminate |]); exact H.
Qed.

(** C2: with the three sensor data of the provider (a missing attribute
    standing for the empty default), the climate section is its header and
    the single explanatory line exactly when the temperature map is empty,
    the fan map is empty and the battery is absent; otherwise it is the
    header, the lines of the sensor groups, the lines of the battery and
    the banner, and the explanatory line is not among them (a group of that
    very name apart). *)
Theorem climate_cannot_read_iff (py : PyRuntime) (p : Provider)
    (temps : gmap string (list shwtemp)) (fans : gmap string (list sfan))
    (battery : option sbattery) :
  sensor_read (sensors_temperatures p) ∅ temps ->
  sensor_read (sensors_fans p) ∅ fans ->
  sensor_read (sensors_battery p) None battery ->
  (stdout (get_hw_temperatures py p)
     = unlines [CLIMATE_INFO; SECTION_SPAN; cannot_read_msg]
   <-> temps = ∅ /\ fans = ∅ /\ battery = None)
  /\ (~ (temps = ∅ /\ fans = ∅ /\ battery = None) ->
      stdout (get_hw_temperatures py p)
        = unlines (climate_lines py temps fans battery)
      /\ ((forall name, name ∈ set_iter py (dom temps ∪ dom fans) ->
              name <> cannot_read_msg) ->
          ~ In cannot_read_msg (climate_lines py temps fans battery))).
Proof.
  intros Et%sensor_read_read_or Ef%sensor_read_read_or Eb%sensor_read_read_or.
  rewrite (get_hw_temperatures_render py p temps fans battery Et Ef Eb).
  rewrite stdout_pair.
  assert (Hshow : ~ (temps = ∅ /\ fans = ∅ /\ battery = None) ->
            unlines [CLIMATE_INFO; SECTION_SPAN]
            +:+ stdout (render_climate py temps fans battery)
            = unlines (climate_lines py temps fans battery)).
  { intros Hn. rewrite (writes_stdout _ _ (writes_render_climate py _ _ _ Hn)).
    unfold climate_lines. now rewrite (unlines_app [CLIMATE_INFO; SECTION_SPAN]). }
  split; [split |].
  - intros H.
    destruct (negb (dict_truthy temps || dict_truthy fans || battery_truthy battery))
      eqn:Hall; [now apply all_absent_iff |].
    assert (Hn : ~ (temps = ∅ /\ fans = ∅ /\ battery = None)).
    { intros Ha. apply all_absent_iff in Ha. congruence. }
    exfalso. rewrite (Hshow Hn) in H. unfold climate_lines in H.
    rewrite (unlines_app [CLIMATE_INFO; SECTION_SPAN]) in H.
    change (unlines [CLIMATE_INFO; SECTION_SPAN; cannot_read_msg])
      with (unlines [CLIMATE_INFO; SECTION_SPAN] +:+ unlines [cannot_read_msg]) in H.
    apply str_app_cancel_l in H.
    rewrite app_assoc, unlines_app in H.
    apply (f_equal String.length) in H.
    rewrite str_length_app in H.
    vm_compute (String.length (unlines [SECTION_SPAN])) in H.
    vm_compute (String.length (unlines [cannot_read_msg])) in H.
    lia.
  - intros Ha. rewrite render_climate_stdout.
    apply all_absent_iff in Ha. rewrite Ha. reflexivity.
  - intros Hn. split; [exact (Hshow Hn) |].
    intros Hnames. unfold climate_lines. rewrite !in_app_iff.
    intros [H | [H | [H | H]]].
    + simpl in H. destruct H as [H | [H | []]]; vm_compute in H; discriminate.
    + apply in_concat in H. destruct H as (l & Hl & H).
      apply in_map_iff in Hl. destruct Hl as (name & <- & Hin).
      apply list_elem_of_In in Hin.
      exact (cannot_read_not_in_group py temps fans name (Hnames name Hin) H).
    + exact (cannot_read_not_in_battery py battery H).
    + simpl in H. destruct H as [H | []]. vm_compute in H. discriminate.
Qed.

Lemma climate_cannot_read_iff_witness :
  stdout (get_hw_temperatures decimal_runtime server)
    = unlines [CLIMATE_INFO; SECTION_SPAN; cannot_read_msg]
  /\ stdout (get_hw_temperatures decimal_runtime laptop)
      = unlines [CLIMATE_INFO; SECTION_SPAN; "coretemp"; "    Temperatures:";
                 "        Core 0               45.0°C (high=80.0°C, critical=None°C)";
                 "Battery:"; "    charge:     85.5%"; "    left:       1:01:01";
                 "    status:     discharging"; "    plugged in: no"; SECTION_SPAN]
  /\ stdout (get_hw_temperatures decimal_runtime laptop)
      <> unlines [CLIMATE_INFO; SECTION_SPAN; cannot_read_msg].
Proof.
  pose proof (climate_cannot_read_iff decimal_runtime server ∅ ∅ None
                (or_intror (conj eq_refl eq_refl)) (or_intror (conj eq_refl eq_refl))
                (or_introl eq_refl)) as [Hs _].
  pose proof (climate_cannot_read_iff decimal_runtime laptop
                {[ "coretemp" := [core_temp] ]} ∅ (Some laptop_battery)
                (or_introl eq_refl) (or_introl eq_refl) (or_introl eq_refl))
    as [Hl Hr].
  assert (Hn : ~ (({[ "coretemp" := [core_temp] ]} : gmap string (list shwtemp)) = ∅
                  /\ (∅ : gmap string (list sfan)) = ∅
                  /\ Some laptop_battery = None))
    by (intros (_ & _ & [=])).
  split; [apply Hs; repeat split |].
  split.
  - rewrite (proj1 (Hr Hn)). vm_compute. reflexivity.
  - intros E. apply Hn. apply Hl. exact E.
Defined.

(** C7, as the code has it: with a battery among the provider's data the
    climate section closes with the battery block and the banner.  The
    block prints the charge as [round(percent, 2)] prints; with
    [power_plugged] true it prints charging exactly when the charge is
    below 100 and fully charged exactly when it is 100 or more, then
    plugged in: yes; otherwise it prints the time left through
    [secs2hours], discharging and plugged in: no. *)
Theorem print_battery_report (py : PyRuntime) (b : sbattery) :
  let charge :=
    "    charge:     " +:+ num_str py (num_round py (percent b) 2) +:+ "%" in
  (power_plugged b = Some true ->
     (writes (print_battery py b)
        ["Battery:"; charge; "    status:     charging"; "    plugged in: yes"]
      <-> (num_value (percent b) < 100)%Q)
     /\ (writes (print_battery py b)
           ["Battery:"; charge; "    status:     fully charged"; "    plugged in: yes"]
         <-> (100 <= num_value (percent b))%Q))
  /\ (power_plugged b <> Some true ->
        writes (print_battery py b)
          ["Battery:"; charge; "    left:       " +:+ secs2hours (secsleft b);
           "    status:     discharging"; "    plugged in: no"])
  /\ (forall (p : Provider) temps fans,
        sensor_read (sensors_temperatures p) ∅ temps ->
        sensor_read (sensors_fans p) ∅ fans ->
        sensor_read (sensors_battery p) None (Some b) ->
        exists ls,
          stdout (get_hw_temperatures py p)
          = unlines (ls ++ battery_lines py (Some b) ++ [SECTION_SPAN])).
Proof.
  intros charge. pose proof (writes_print_battery py b) as W.
  unfold battery_lines in W. fold charge in W. split; [| split].
  - intros Hp. rewrite Hp in W.
    destruct (Qlt_le_dec (num_value (percent b)) 100) as [Hlt|Hge];
      split; split; intros H.
    + exact Hlt.
    + exact W.
    + exfalso. exact (status_texts_differ charge (writes_functional _ _ _ W H)).
    + exfalso. exact (Qlt_not_le _ _ Hlt H).
    + exfalso. exact (status_texts_differ charge (writes_functional _ _ _ H W)).
    + exfalso. exact (Qlt_not_le _ _ H Hge).
    + exact Hge.
    + exact W.
  - intros Hp. destruct (power_plugged b) as [[|]|]; [congruence | exact W | exact W].
  - intros p temps fans Et%sensor_read_read_or Ef%sensor_read_read_or
      Eb%sensor_read_read_or.
    rewrite (get_hw_temperatures_render py p temps fans (Some b) Et Ef Eb).
    rewrite stdout_pair.
    assert (Hn : ~ (temps = ∅ /\ fans = ∅ /\ Some b = None))
      by (intros (_ & _ & [=])).
    rewrite (writes_stdout _ _ (writes_render_climate py temps fans (Some b) Hn)).
    exists ([CLIMATE_INFO; SECTION_SPAN]
            ++ concat (map (group_lines py temps fans)
                         (set_iter py (dom temps ∪ dom fans)))).
    rewrite <- (unlines_app [CLIMATE_INFO; SECTION_SPAN]).
    now rewrite <- app_assoc.
Qed.

Lemma print_battery_report_witness :
  writes (print_battery decimal_runtime charging_battery)
    ["Battery:"; "    charge:     50.0%"; "    status:     charging";
     "    plugged in: yes"]
  /\ writes (print_battery decimal_runtime full_battery)
       ["Battery:"; "    charge:     100.0%"; "    status:     fully charged";
        "    plugged in: yes"]
  /\ writes (print_battery decimal_runtime laptop_battery)
       ["Battery:"; "    charge:     85.5%"; "    left:       1:01:01";
        "    status:     discharging"; "    plugged in: no"]
  /\ writes (print_battery decimal_runtime integer_battery)
       ["Battery:"; "    charge:     85%"; "    left:       1:01:01";
        "    status:     discharging"; "    plugged in: no"].
Proof.
  split; [| split; [| split]].
  - apply (proj1 (print_battery_report decimal_runtime charging_battery) eq_refl).
    unfold Qlt. simpl. lia.
  - apply (proj1 (print_battery_report decimal_runtime full_battery) eq_refl).
    unfold Qle. simpl. lia.
  - apply (proj1 (proj2 (print_battery_report decimal_runtime laptop_battery))).
    discriminate.
  - apply (proj1 (proj2 (print_battery_report decimal_runtime integer_battery))).
    discriminate.
Defined.

(** A battery on mains that reports more than 100 percent is printed as
    fully charged: that status is not kept for exactly 100. *)
Lemma print_battery_overfull :
  writes (print_battery decimal_runtime overfull_battery)
    ["Battery:"; "    charge:     100.4%"; "    status:     fully charged";
     "    plugged in: yes"]
  /\ ~ spec_fully_charged_at_100 decimal_runtime overfull_battery.
Proof.
  assert (W : writes (print_battery decimal_runtime overfull_battery)
                ["Battery:"; "    charge:     100.4%";
                 "    status:     fully charged"; "    plugged in: yes"])
    by (exists tt; vm_compute; reflexivity).
  split; [exact W |].
  intros [H _]. specialize (H W). revert H. unfold Qeq. simpl. lia.
Qed.

(** When one of the three is there, the climate section ends with the
    banner. *)
Lemma render_climate_banner py temps fans battery :
  ~ (temps = ∅ /\ fans = ∅ /\ battery = None) ->
  ends_with_banner (render_climate py temps fans battery).
Proof.
  intros Hn. unfold render_climate.
  destruct (negb _) eqn:Hall; [apply all_absent_iff in Hall; contradiction |].
  apply banner_bind; [| intros _].
  - apply closed_for_each. intros name. unfold print_sensor_group.
    unfold print_temp_entry, print_fan_entry. report.
  - apply banner_bind; [| intros _; apply banner_print].
    destruct battery as [b|]; [| apply closed_ret].
    exact (writes_closed _ _ (writes_print_battery py b)).
Qed.

(** C6, on the path the code misses: on a machine without sensors and
    battery the climate section returns after the explanatory line, which is
    then its last line; the banner is not. *)
Theorem climate_without_sensors_last_line (py : PyRuntime) :
  get_hw_temperatures py server
    = (unlines [CLIMATE_INFO; SECTION_SPAN; cannot_read_msg], inr tt)
  /\ final_line (stdout (get_hw_temperatures py server)) = Some cannot_read_msg
  /\ final_line (stdout (get_hw_temperatures py server)) <> Some SECTION_SPAN.
Proof.
  assert (E : get_hw_temperatures py server
              = (unlines [CLIMATE_INFO; SECTION_SPAN; cannot_read_msg], inr tt))
    by (vm_compute; reflexivity).
  rewrite E. split; [reflexivity |].
  split; [vm_compute; reflexivity | vm_compute; discriminate].
Qed.

(** With its reads in and one of the three there, the whole climate section
    ends with the banner. *)
Lemma get_hw_temperatures_banner py p temps fans battery :
  read_or (sensors_temperatures p) ∅ = ret temps ->
  read_or (sensors_fans p) ∅ = ret fans ->
  read_or (sensors_battery p) None = ret battery ->
  ~ (temps = ∅ /\ fans = ∅ /\ battery = None) ->
  final_line (stdout (get_hw_temperatures py p)) = Some SECTION_SPAN.
Proof.
  intros Et Ef Eb Hn.
  assert (B : ends_with_banner (get_hw_temperatures py p)).
  { unfold get_hw_temperatures. rewrite Et, Ef, Eb.
    apply banner_bind; [apply closed_print_section_header | intros _].
    rewrite !ret_bind. now apply render_climate_banner. }
  assert (O : outcome (get_hw_temperatures py p) = inr tt).
  { rewrite (get_hw_temperatures_render py p temps fans battery Et Ef Eb).
    unfold render_climate.
    destruct (negb _) eqn:Hall; [apply all_absent_iff in Hall; contradiction |].
    apply outcome_seq_ok;
      [apply outcome_for_each_ok; intros; apply outcome_print_sensor_group |].
    apply outcome_seq_ok; [| reflexivity].
    destruct battery; [apply outcome_print_battery | reflexivity]. }
  exact (ends_with_banner_final _ tt B O).
Qed.

(** ** The orchestrator *)

Lemma bind_ret_r (m : M unit) : (m ;; ret tt) = m.
Proof.
  destruct m as [w [e|[]]]; [reflexivity |].
  rewrite bind_unfold. simpl. now rewrite str_app_nil_r.
Qed.

Lemma run_steps_cons (m : M unit) rest : run_steps (m :: rest) = (m ;; run_steps rest).
Proof.
  rewrite bind_unfold. simpl.
  destruct (outcome m); [reflexivity |]. now destruct (run_steps rest).
Qed.

Lemma main_run_steps py ps p : main py ps p = run_steps (main_steps py ps p).
Proof.
  unfold main, main_steps. rewrite !run_steps_cons.
  simpl (run_steps []). now rewrite bind_ret_r.
Qed.

(** The steps before the first that raises are written, then what the
    raising step wrote; nothing after it runs. *)
Lemma run_steps_raise (before : list (M unit)) (m : M unit) rest e :
  Forall (fun s => outcome s = inr tt) before -> outcome m = inl e ->
  run_steps (before ++ m :: rest)
    = (str_concat (map stdout before) +:+ stdout m, inl e).
Proof.
  intros Hb Hm. induction Hb as [|s before Hs Hb IH]; simpl.
  - now rewrite Hm.
  - rewrite Hs, IH. now rewrite str_app_assoc.
Qed.

Lemma run_steps_ok (steps : list (M unit)) :
  Forall (fun s => outcome s = inr tt) steps ->
  run_steps steps = (str_concat (map stdout steps), inr tt).
Proof.
  intros H. induction H as [|s steps Hs H IH]; simpl; [reflexivity |].
  now rewrite Hs, IH.
Qed.

(** C1, as the code has it: [main] runs the banner and the five sections
    in their order; when one raises, what was written up to there stays,
    the exception leaves [main] and no later section runs; when none
    raises, all of them are written in that order. *)
Theorem main_stops_at_first_failure (py : PyRuntime) (ps : PsutilLib) (p : Provider) :
  (forall before m rest e,
     main_steps py ps p = before ++ m :: rest ->
     Forall (fun s => outcome s = inr tt) before ->
     outcome m = inl e ->
     main py ps p = (str_concat (map stdout before) +:+ stdout m, inl e))
  /\ (Forall (fun s => outcome s = inr tt) (main_steps py ps p) ->
      main py ps p = (str_concat (map stdout (main_steps py ps p)), inr tt)).
Proof.
  rewrite main_run_steps. split.
  - intros before m rest e -> Hb Hm. now apply run_steps_raise.
  - apply run_steps_ok.
Qed.

(** On the laptop whose disk read raises, the report stops inside the disk
    section: the network and climate sections are not in it. *)
Lemma main_aborts_on_disk_failure :
  outcome (main decimal_runtime linux_psutil laptop_bad_disk)
    = inl (ProviderError "FileNotFoundError")
  /\ final_line (stdout (main decimal_runtime linux_psutil laptop_bad_disk))
       = Some SECTION_SPAN
  /\ ~ spec_every_section_runs decimal_runtime linux_psutil laptop_bad_disk.
Proof.
  split; [vm_compute; reflexivity |].
  split; [vm_compute; reflexivity |].
  intros H. unfold spec_every_section_runs, section_titles in H.
  rewrite !Forall_cons in H.
  destruct H as (_ & _ & _ & _ & Hnet & _).
  assert (Hn : bool_decide
                 (NETWORK_INFO ∈ lines (stdout (main decimal_runtime linux_psutil
                                                  laptop_bad_disk))) = false)
    by (vm_compute; reflexivity).
  apply bool_decide_eq_false in Hn. contradiction.
Qed.

Lemma main_stops_at_first_failure_witness :
  main decimal_runtime linux_psutil laptop_bad_disk
  = (str_concat
       (map stdout
          [print newline; print_program_header;
           get_cpu_info decimal_runtime laptop_bad_disk;
           get_memory_info decimal_runtime laptop_bad_disk])
     +:+ stdout (get_disk_info decimal_runtime laptop_bad_disk),
     inl (ProviderError "FileNotFoundError")).
Proof.
  apply (proj1 (main_stops_at_first_failure decimal_runtime linux_psutil laptop_bad_disk)
           _ _ [get_network_info linux_psutil laptop_bad_disk;
                get_hw_temperatures decimal_runtime laptop_bad_disk]).
  - reflexivity.
  - repeat constructor.
  - reflexivity.
Defined.

(** ** The byte-count humanizer *)

Section Humanize.
Variable n : Z.
Hypothesis n_nonneg : 0 <= n.

Lemma unit_order_nonneg : 0 <= unit_order n.
Proof. unfold unit_order. apply Z.div_pos; [apply Z.log2_nonneg | lia]. Qed.

Lemma unit_size_pow2 : unit_size n = 2 ^ (10 * unit_order n).
Proof.
  unfold unit_size. rewrite Z.pow_mul_r by (pose proof unit_order_nonneg; lia).
  reflexivity.
Qed.

Lemma unit_size_pos : 0 < unit_size n.
Proof. unfold unit_size. apply Z.pow_pos_nonneg; [lia | apply unit_order_nonneg]. Qed.

(** The unit is the one between whose size and the next the count lies. *)
Lemma unit_size_bounds :
  n < 1024 * unit_size n /\ (1 <= n -> unit_size n <= n).
Proof.
  pose proof unit_order_nonneg as Hk.
  assert (Hdiv : 10 * unit_order n <= Z.log2 n < 10 * unit_order n + 10).
  { unfold unit_order.
    pose proof (Z.div_mod (Z.log2 n) 10 ltac:(lia)).
    pose proof (Z.mod_pos_bound (Z.log2 n) 10 ltac:(lia)). lia. }
  destruct (Z.eq_dec n 0) as [-> | Hn0].
  - split; [reflexivity | lia].
  - destruct (Z.log2_spec n ltac:(lia)) as [Hlo Hhi].
    rewrite unit_size_pow2. split.
    + change 1024 with (2 ^ 10). rewrite <- Z.pow_add_r by lia.
      eapply Z.lt_le_trans; [exact Hhi |].
      apply Z.pow_le_mono_r; lia.
    + intros _. eapply Z.le_trans; [| exact Hlo].
      apply Z.pow_le_mono_r; lia.
Qed.

Lemma unit_size_to_pos : Z.pos (Z.to_pos (unit_size n)) = unit_size n.
Proof. apply Z2Pos.id, unit_size_pos. Qed.
End Humanize.

Lemma round_half_even_near (a b : Z) :
  0 < b -> 2 * Z.abs (round_half_even a b * b - a) <= b.
Proof.
  intros Hb. unfold round_half_even.
  pose proof (Z.div_mod a b ltac:(lia)) as E.
  pose proof (Z.mod_pos_bound a b Hb) as Hr.
  destruct (Z.ltb_spec (2 * (a mod b)) b);
    [| destruct (Z.ltb_spec b (2 * (a mod b))); [| destruct (Z.even (a / b))]]; nia.
Qed.

Lemma digits_one_digit d : 0 <= d < 10 -> String.length (digits d) = 1%nat.
Proof.
  intros Hd. assert (H : 0 <= d < 60) by lia. revert d H Hd.
  apply (small_cases (fun d => 0 <= d < 10 -> String.length (digits d) = 1%nat)).
  intros m _ Hm. do 10 (destruct m as [|m]; [reflexivity |]). lia.
Qed.

Lemma uint_string_dot_free d : has_char "." (NilEmpty.string_of_uint d) = false.
Proof. induction d; simpl; auto. Qed.

Lemma digits_dot_free z : has_char "." (digits z) = false.
Proof.
  unfold digits, NilZero.string_of_uint.
  destruct (N.to_uint (Z.to_N z)); try reflexivity; apply uint_string_dot_free.
Qed.

Lemma split_first_free sep (x y : string) :
  has_char sep x = false -> split_first sep (x +:+ String sep y) = Some (x, y).
Proof.
  induction x as [|c x IH]; simpl.
  - intros _. now rewrite Ascii.eqb_refl.
  - intros [Hc Hx]%orb_false_elim. now rewrite Hc, (IH Hx).
Qed.

(** A number below ten is one digit, which reads back as the number. *)
Lemma digits_single d :
  0 <= d < 10 -> exists c, digits d = String c "" /\ parse_nat (String c "") = Some d.
Proof.
  intros Hd. assert (H : 0 <= d < 60) by lia. revert d H Hd.
  apply (small_cases (fun d => 0 <= d < 10 ->
           exists c, digits d = String c "" /\ parse_nat (String c "") = Some d)).
  intros m _ Hm.
  do 10 (destruct m as [|m]; [eexists; split; reflexivity |]). lia.
Qed.

Lemma scaled_tenths_bounds (n : Z) : 0 <= n -> 0 <= scaled_tenths n <= 10240.
Proof.
  intros Hn. pose proof (unit_size_pos n) as Hpos.
  pose proof (unit_size_bounds n Hn) as [Hhi _].
  pose proof (round_half_even_near (10 * n) (unit_size n) Hpos) as Hr.
  fold (scaled_tenths n) in Hr. nia.
Qed.

(** The text reads back as the tenths printed and the suffix. *)
Lemma parse_human_humanizeBytes (beyond : Z -> string) (n : Z) :
  0 <= n ->
  parse_human (humanizeBytes beyond n)
    = Some (scaled_tenths n, unit_suffix beyond (unit_order n)).
Proof.
  intros Hn. pose proof (scaled_tenths_bounds n Hn) as [Ht _].
  unfold humanizeBytes, parse_human. cbv zeta.
  change ("." +:+ ?r) with (String "."%char r).
  rewrite split_first_free by apply digits_dot_free.
  destruct (digits_single (scaled_tenths n mod 10)
              ltac:(apply Z.mod_pos_bound; lia)) as (c & -> & Pc).
  change (String c "" +:+ ?r) with (String c r). cbv iota beta.
  rewrite parse_nat_digits by (apply Z.div_pos; lia).
  rewrite Pc. simpl. f_equal. f_equal.
  pose proof (Z.div_mod (scaled_tenths n) 10 ltac:(lia)). lia.
Qed.

(** The unit is decided by the magnitude of the count. *)
Lemma unit_order_unique (n k : Z) :
  0 <= k -> 1024 ^ k <= n < 1024 ^ (k + 1) -> unit_order n = k.
Proof.
  intros Hk [Hlo Hhi].
  assert (Hn : 0 < n) by (pose proof (Z.pow_pos_nonneg 1024 k ltac:(lia) Hk); lia).
  assert (E : forall j, 0 <= j -> 1024 ^ j = 2 ^ (10 * j))
    by (intros j Hj; now rewrite Z.pow_mul_r by lia).
  rewrite E in Hlo by lia. rewrite E in Hhi by lia.
  apply Z.log2_le_pow2 in Hlo; [| exact Hn].
  apply Z.log2_lt_pow2 in Hhi; [| exact Hn].
  unfold unit_order. symmetry. apply (Z.div_unique _ _ _ (Z.log2 n - 10 * k)); lia.
Qed.

Lemma unit_order_bytes (n : Z) : 0 <= n < 1024 -> unit_order n = 0.
Proof.
  intros Hn. destruct (Z.eq_dec n 0) as [-> | Hne]; [reflexivity |].
  apply unit_order_unique; [lia |]. change (1024 ^ 0) with 1.
  change (1024 ^ (0 + 1)) with 1024. lia.
Qed.

(** C5, on the modelled humanizer: for a byte count [n >= 0] the unit is
    the binary unit [n] reaches (B below 1024, then KB, MB, GB, TB), so the
    exact scaled value lies in [0, 1024) and gives [n] back times the unit
    size; the text is that value with one decimal digit, then the suffix;
    the value in the text is within half a tenth of the scaled one and lies
    in [0, 1024.0], the end included. *)
Theorem humanizeBytes_scaled (beyond : Z -> string) (n : Z) :
  0 <= n ->
  ((0 <= scaled_value n)%Q /\ (scaled_value n < 1024)%Q)
  /\ (1 <= n -> unit_size n <= n < 1024 * unit_size n)
  /\ (scaled_value n * inject_Z (unit_size n) == inject_Z n)%Q
  /\ parse_human (humanizeBytes beyond n)
       = Some (scaled_tenths n, unit_suffix beyond (unit_order n))
  /\ 0 <= scaled_tenths n <= 10240
  /\ (Qabs ((scaled_tenths n # 10) - scaled_value n) <= 1 # 20)%Q
  /\ ((n < 1024 -> unit_suffix beyond (unit_order n) = "B")
      /\ (1024 <= n < 1024 ^ 2 -> unit_suffix beyond (unit_order n) = "KB")
      /\ (1024 ^ 2 <= n < 1024 ^ 3 -> unit_suffix beyond (unit_order n) = "MB")
      /\ (1024 ^ 3 <= n < 1024 ^ 4 -> unit_suffix beyond (unit_order n) = "GB")
      /\ (1024 ^ 4 <= n < 1024 ^ 5 -> unit_suffix beyond (unit_order n) = "TB")).
Proof.
  intros Hn.
  pose proof (unit_size_pos n) as Hpos.
  pose proof (unit_size_bounds n Hn) as [Hhi Hlo].
  pose proof (unit_size_to_pos n) as Hp.
  split; [split |].
  { unfold scaled_value, Qle. simpl. lia. }
  { unfold scaled_value, Qlt. simpl. rewrite Hp. lia. }
  split; [intros H1; split; [now apply Hlo | exact Hhi] |].
  split.
  { unfold scaled_value, Qeq, Qmult, inject_Z. simpl.
    rewrite Pos.mul_1_r, Hp. lia. }
  split; [now apply parse_human_humanizeBytes |].
  split; [now apply scaled_tenths_bounds |].
  split.
  { apply Qabs_Qle_condition.
    pose proof (round_half_even_near (10 * n) (unit_size n) Hpos) as Hr.
    fold (scaled_tenths n) in Hr.
    unfold scaled_value, Qle, Qminus, Qplus, Qopp. simpl.
    rewrite !Pos2Z.inj_mul, Hp. split; nia. }
  split; [intros H; now rewrite unit_order_bytes by lia |].
  repeat split; intros H.
  - now rewrite (unit_order_unique n 1) by (try split; lia).
  - now rewrite (unit_order_unique n 2) by (try split; lia).
  - now rewrite (unit_order_unique n 3) by (try split; lia).
  - now rewrite (unit_order_unique n 4) by (try split; lia).
Qed.

Lemma humanizeBytes_scaled_witness :
  0 <= 100001221
  /\ humanizeBytes (fun _ => "PB") 100001221 = "95.4MB"
  /\ parse_human (humanizeBytes (fun _ => "PB") 100001221) = Some (954, "MB")
  /\ (Qabs ((954 # 10) - scaled_value 100001221) <= 1 # 20)%Q.
Proof.
  assert (H : 0 <= 100001221) by lia.
  pose proof (humanizeBytes_scaled (fun _ => "PB") 100001221 H)
    as (_ & _ & _ & E & _ & R & _).
  split; [exact H | split; [reflexivity | split; [exact E | exact R]]].
Defined.

(** One byte short of a megabyte is printed as 1024.0KB: the value in the
    text is not below 1024. *)
Lemma humanizeBytes_rounds_to_1024 :
  humanizeBytes (fun _ => "PB") 1048575 = "1024.0KB"
  /\ ~ spec_shown_below_1024 (fun _ => "PB") 1048575.
Proof.
  split; [reflexivity |].
  intros (t & suffix & E & Ht). vm_compute in E. injection E as <- _. lia.
Qed.

(** * Further properties of the script *)

(** ** The clock on every integer *)

Lemma parse_clock_secs2hours (s : Z) :
  0 <= s ->
  parse_clock (secs2hours s) = Some (s / 3600, s / 60 mod 60, s mod 60).
Proof.
  intros Hs.
  assert (Hh : 0 <= s / 3600) by (apply Z.div_pos; lia).
  pose proof (Z.mod_pos_bound (s / 60) 60 ltac:(lia)) as Hm.
  pose proof (Z.mod_pos_bound s 60 ltac:(lia)) as Hx.
  rewrite secs2hours_eq, str_int_nonneg by exact Hh.
  unfold parse_clock, split_colon.
  change (digits (s / 3600) +:+ ":" +:+ fmt_0d 2 (s / 60 mod 60)
          +:+ ":" +:+ fmt_0d 2 (s mod 60))
    with (digits (s / 3600)
          +:+ String ":" (fmt_0d 2 (s / 60 mod 60) +:+ String ":" (fmt_0d 2 (s mod 60)))).
  rewrite !split_on_cut.
  rewrite !split_on_free
    by (apply digits_colon_free || (apply fmt_0d_colon_free; lia)).
  cbn [app].
  rewrite parse_nat_digits by exact Hh.
  rewrite !parse_nat_fmt_0d by lia.
  reflexivity.
Qed.

Lemma clock_fields_sum (s : Z) : s / 3600 * 3600 + s / 60 mod 60 * 60 + s mod 60 = s.
Proof.
  pose proof (Z.div_mod s 60 ltac:(lia)) as E1.
  pose proof (Z.div_mod (s / 60) 60 ltac:(lia)) as E2.
  rewrite Z.div_div in E2 by lia. change (60 * 60) with 3600 in E2. lia.
Qed.

(** Two different non-negative durations never print as the same clock. *)
Theorem secs2hours_injective (s1 s2 : Z) :
  0 <= s1 -> 0 <= s2 -> secs2hours s1 = secs2hours s2 -> s1 = s2.
Proof.
  intros H1 H2 E.
  pose proof (parse_clock_secs2hours s1 H1) as P1.
  pose proof (parse_clock_secs2hours s2 H2) as P2.
  rewrite E, P2 in P1. injection P1 as Eh Em Ex.
  rewrite <- (clock_fields_sum s1), <- (clock_fields_sum s2). congruence.
Qed.

Lemma secs2hours_injective_witness :
  0 <= 59 /\ 0 <= 60 /\ secs2hours 59 <> secs2hours 60.
Proof.
  split; [lia | split; [lia |]].
  intros E. apply (secs2hours_injective 59 60) in E; lia.
Defined.

Lemma parse_nat_minus (s : string) : parse_nat (String "-" s) = None.
Proof.
  unfold parse_nat, NilZero.uint_of_string.
  change (NilEmpty.uint_of_string (String "-" s))
    with (uint_of_char "-" (NilEmpty.uint_of_string s)).
  now destruct (NilEmpty.uint_of_string s).
Qed.

(** For a negative number of seconds, as the sentinels of psutil for an
    unknown or unlimited battery time are, the minute and second fields are
    still those of the floor division, the hour field is negative, the text
    starts with a minus sign and does not read back as a clock. *)
Theorem secs2hours_negative (s : Z) :
  s < 0 ->
  s / 3600 < 0
  /\ 0 <= s / 60 mod 60 < 60 /\ 0 <= s mod 60 < 60
  /\ s / 3600 * 3600 + s / 60 mod 60 * 60 + s mod 60 = s
  /\ secs2hours s =
       "-" +:+ digits (- (s / 3600)) +:+ ":" +:+ fmt_0d 2 (s / 60 mod 60)
       +:+ ":" +:+ fmt_0d 2 (s mod 60)
  /\ parse_clock (secs2hours s) = None.
Proof.
  intros Hs.
  assert (Hh : s / 3600 < 0) by (apply Z.div_lt_upper_bound; lia).
  pose proof (Z.mod_pos_bound (s / 60) 60 ltac:(lia)) as Hm.
  pose proof (Z.mod_pos_bound s 60 ltac:(lia)) as Hx.
  assert (E : secs2hours s =
                "-" +:+ digits (- (s / 3600)) +:+ ":" +:+ fmt_0d 2 (s / 60 mod 60)
                +:+ ":" +:+ fmt_0d 2 (s mod 60)).
  { rewrite secs2hours_eq. unfold str_int.
    destruct (Z.ltb_spec (s / 3600) 0); [| lia].
    rewrite Z.abs_neq by lia. now rewrite !str_app_assoc. }
  split; [exact Hh |]. split; [exact Hm |]. split; [exact Hx |].
  split; [apply clock_fields_sum |]. split; [exact E |].
  rewrite E. unfold parse_clock, split_colon.
  change ("-" +:+ digits (- (s / 3600)) +:+ ":" +:+ fmt_0d 2 (s / 60 mod 60)
          +:+ ":" +:+ fmt_0d 2 (s mod 60))
    with (String "-" (digits (- (s / 3600)))
          +:+ String ":" (fmt_0d 2 (s / 60 mod 60) +:+ String ":" (fmt_0d 2 (s mod 60)))).
  rewrite !split_on_cut.
  rewrite (split_on_free _ (String "-" _))
    by (simpl; apply digits_colon_free).
  rewrite !split_on_free by (apply fmt_0d_colon_free; lia).
  cbn [app]. now rewrite parse_nat_minus.
Qed.

Lemma secs2hours_negative_witness :
  secs2hours (-2) = "-1:59:58" /\ parse_clock (secs2hours (-2)) = None.
Proof.
  assert (H : -2 < 0) by lia.
  pose proof (secs2hours_negative (-2) H) as (_ & _ & _ & _ & E & P).
  split; [rewrite E; reflexivity | exact P].
Defined.

(** ** Frequencies are cut, not rounded *)

(** [int(x)] drops the fraction of a float: the result is within one of
    [x], on the side of zero. *)
Theorem float_int_truncates (x : Q) :
  ((0 <= x)%Q -> (inject_Z (float_int x) <= x)%Q /\ (x < inject_Z (float_int x + 1))%Q)
  /\ ((x <= 0)%Q -> (x <= inject_Z (float_int x))%Q /\ (inject_Z (float_int x - 1) < x)%Q).
Proof.
  destruct x as [a b]. unfold float_int, Qle, Qlt. simpl.
  pose proof (Z.quot_rem' a (Z.pos b)) as E.
  split; intros H.
  - assert (Ha : 0 <= a) by lia.
    pose proof (Z.rem_bound_pos a (Z.pos b) Ha ltac:(lia)). nia.
  - assert (Ha : a <= 0) by lia.
    pose proof (Z.rem_bound_pos_neg a (Z.pos b) ltac:(lia) Ha). nia.
Qed.

Lemma float_int_truncates_witness :
  (inject_Z (float_int 2399.9) <= 2399.9)%Q /\ float_int 2399.9 = 2399
  /\ float_int (-0.5) = 0.
Proof.
  split; [| split; reflexivity].
  apply (proj1 (float_int_truncates 2399.9)). unfold Qle. simpl. lia.
Defined.

(** ** Sections that meet a failing read *)

Lemma raises_print_bind {B} (s : string) (k : M B) ls e :
  k = (unlines ls, inl e) -> (print s ;; k) = (unlines (s :: ls), inl e).
Proof. intros ->. rewrite bind_unfold. simpl. now rewrite str_app_assoc. Qed.

Lemma stdout_after_header {B} (title : string) (k : M B) :
  stdout (print_section_header title ;; k)
    = unlines [title; SECTION_SPAN] +:+ stdout k.
Proof.
  rewrite (stdout_bind_ok _ _ tt) by reflexivity. f_equal.
  unfold print_section_header. rewrite bind_unfold. simpl.
  now rewrite str_app_assoc.
Qed.

(** Where [cpu_freq()] is [None] the CPU section has written its header
    and the four lines of the reads before, then the subscript raises
    [TypeError]: no frequency line and no banner follow. *)
Theorem get_cpu_info_without_freq (py : PyRuntime) (p : Provider)
    (usage : Q) (cores : option Z) (per_core : list Q) (logical : option Z) :
  cpu_percent p = inr usage ->
  cpu_count_physical p = inr cores ->
  cpu_percent_percpu p = inr per_core ->
  cpu_count_logical p = inr logical ->
  cpu_freq p = inr None ->
  get_cpu_info py p =
    (unlines [CPU_INFO; SECTION_SPAN;
              "Aggregate CPU usage: " +:+ float_str py usage +:+ "%";
              "Physical cores:  " +:+ str_opt_int cores;
              "Individual core usage:  " +:+ str_float_list py per_core +:+ "%";
              "Cores including HT:  " +:+ str_opt_int logical],
     inl TypeError).
Proof.
  intros E1 E2 E3 E4 E5. unfold get_cpu_info, print_section_header.
  rewrite E1, E2, E3, E4, E5.
  assert (H : forall (k : M unit) ls e, k = (unlines ls, inl e) ->
            ((print CPU_INFO ;; print SECTION_SPAN) ;; k)
            = (unlines (CPU_INFO :: SECTION_SPAN :: ls), inl e))
    by (intros k ls e ->; rewrite !bind_unfold; simpl;
        rewrite ?str_app_assoc; reflexivity).
  apply H. rewrite call_bind. apply raises_print_bind.
  rewrite call_bind. apply raises_print_bind.
  rewrite call_bind. apply raises_print_bind.
  rewrite call_bind. apply raises_print_bind.
  rewrite call_bind. reflexivity.
Qed.

Lemma get_cpu_info_without_freq_witness :
  get_cpu_info decimal_runtime laptop_no_freq =
    (unlines [CPU_INFO; SECTION_SPAN; "Aggregate CPU usage: 42.0%";
              "Physical cores:  4"; "Individual core usage:  [40.0, 44.0]%";
              "Cores including HT:  8"],
     inl TypeError).
Proof.
  exact (get_cpu_info_without_freq decimal_runtime laptop_no_freq _ _ _ _
           eq_refl eq_refl eq_refl eq_refl eq_refl).
Defined.

(** Whatever its reads do, each section has its title and the banner under
    it as its first two lines: the header is printed before any read. *)
Theorem sections_print_header_first (py : PyRuntime) (ps : PsutilLib) (p : Provider) :
  (exists rest, stdout (get_cpu_info py p) = unlines [CPU_INFO; SECTION_SPAN] +:+ rest)
  /\ (exists rest,
        stdout (get_memory_info py p) = unlines [MEMORY_INFO; SECTION_SPAN] +:+ rest)
  /\ (exists rest,
        stdout (get_disk_info py p) = unlines [DISK_INFO; SECTION_SPAN] +:+ rest)
  /\ (exists rest,
        stdout (get_network_info ps p) = unlines [NETWORK_INFO; SECTION_SPAN] +:+ rest)
  /\ (exists rest,
        stdout (get_hw_temperatures py p) = unlines [CLIMATE_INFO; SECTION_SPAN] +:+ rest).
Proof.
  repeat split; eexists; apply stdout_after_header.
Qed.

(** Whatever fails later, the report starts with two empty lines, the
    program banner and the header of the CPU section. *)
Theorem main_always_starts_with_banner (py : PyRuntime) (ps : PsutilLib) (p : Provider) :
  exists rest,
    stdout (main py ps p)
    = unlines [""; ""; SECTION_SPAN; SPACER; PROGRAM_NAME; SPACER; SECTION_SPAN;
               CPU_INFO; SECTION_SPAN] +:+ rest.
Proof.
  assert (Hcpu : exists rest,
            stdout (get_cpu_info py p) = unlines [CPU_INFO; SECTION_SPAN] +:+ rest)
    by (eexists; apply stdout_after_header).
  destruct Hcpu as [rest Hcpu]. unfold main.
  rewrite (stdout_bind_ok (print newline) _ tt) by reflexivity.
  rewrite (stdout_bind_ok print_program_header _ tt) by reflexivity.
  destruct (outcome (get_cpu_info py p)) as [e|[]] eqn:O.
  - exists rest. rewrite bind_unfold, O, stdout_pair, Hcpu. reflexivity.
  - exists (rest +:+ stdout (get_memory_info py p ;; get_disk_info py p ;;
                            get_network_info ps p ;; get_hw_temperatures py p)).
    rewrite (stdout_bind_ok _ _ tt O), Hcpu, str_app_assoc. reflexivity.
Qed.

(** ** Interfaces *)

(** An interface whose duplex code is none of the table's: [KeyError]
    after the name line and the start of the statistics line. *)
Lemma print_nic_raises (ps : PsutilLib)
    (stats : gmap string snicstats) (io : gmap string snetio)
    (nic : string) (addrs : list snicaddr) (st : snicstats) :
  stats !! nic = Some st ->
  duplex_map ps !! duplex st = None ->
  print_nic ps stats io (nic, addrs)
    = (unlines [nic +:+ ":"] +:+ "    stats           :", inl (KeyError (duplex st))).
Proof.
  intros Est Ed. unfold print_nic. rewrite Est.
  unfold duplex_map_getitem. rewrite Ed.
  rewrite !bind_unfold. simpl. now rewrite !str_app_assoc.
Qed.

(** An interface that is in neither the statistics nor the counters never
    raises: it gets its name line, the lines of its addresses and the empty
    line, and nothing else. *)
Theorem print_nic_without_stats (ps : PsutilLib)
    (stats : gmap string snicstats) (io : gmap string snetio)
    (nic : string) (addrs : list snicaddr) :
  stats !! nic = None -> io !! nic = None ->
  writes (print_nic ps stats io (nic, addrs))
    ((nic +:+ ":") :: concat (map (addr_lines ps) addrs) ++ [""]).
Proof.
  intros Es Ei.
  assert (W : writes (print_nic ps stats io (nic, addrs))
                (nic_lines ps stats io (nic, addrs))).
  { apply writes_print_nic. intros st Hst. congruence. }
  unfold nic_lines, stats_lines, io_lines in W. cbn [fst snd] in W.
  rewrite Es, Ei in W. exact W.
Qed.

Lemma print_nic_without_stats_witness :
  writes (print_nic linux_psutil {[ "eth0" := eth_stats ]} {[ "eth0" := eth_io ]}
            ("lo", [lo_addr]))
    ["lo:"; "    IPv4 address    : 127.0.0.1"; "         netmask    : 255.0.0.0"; ""].
Proof.
  exact (print_nic_without_stats linux_psutil {[ "eth0" := eth_stats ]}
           {[ "eth0" := eth_io ]} "lo" [lo_addr] eq_refl eq_refl).
Defined.

Lemma get_network_info_lines_witness :
  writes (get_network_info linux_psutil laptop)
    (network_lines linux_psutil "laptop" {[ "eth0" := eth_stats ]}
       {[ "eth0" := eth_io ]} [("lo", [lo_addr]); ("eth0", [eth_addr; eth_mac])]).
Proof.
  apply (get_network_info_lines linux_psutil laptop); try reflexivity.
  intros nic st [_ <-]%lookup_singleton_Some. vm_compute. eauto.
Defined.

(** The subscript of [duplex_map] raises exactly on a code that is none of
    its three keys, whatever the values of the keys are, and the
    [KeyError] carries the code. *)
Theorem duplex_map_getitem_raises_iff (ps : PsutilLib) (code : Z) :
  (code ∈ [NIC_DUPLEX_FULL ps; NIC_DUPLEX_HALF ps; NIC_DUPLEX_UNKNOWN ps] <->
     exists s, duplex_map_getitem ps code = ret s)
  /\ (code ∉ [NIC_DUPLEX_FULL ps; NIC_DUPLEX_HALF ps; NIC_DUPLEX_UNKNOWN ps] <->
        duplex_map_getitem ps code = raise (KeyError code)).
Proof.
  unfold duplex_map_getitem. rewrite duplex_map_lookup.
  rewrite !list_elem_of_In. simpl.
  repeat case_decide; split; split; intros HH;
    try (eexists; reflexivity); try reflexivity; try discriminate;
    try (destruct HH; discriminate);
    intuition congruence.
Qed.

Lemma str_length_repeat (c : ascii) (n : nat) :
  String.length (str_repeat (String c "") n) = n.
Proof. induction n as [|n IH]; simpl; [reflexivity | now rewrite IH]. Qed.

(** The family column of an address line is never narrower than four
    characters, and exactly four wide for a family of [af_map]. *)
Theorem fmt_af4_width (ps : PsutilLib) (fam : Z) :
  (4 <= String.length (fmt_af4 (af_map_get ps fam)))%nat
  /\ (fam ∈ [AF_INET ps; AF_INET6 ps; AF_LINK ps] ->
      String.length (fmt_af4 (af_map_get ps fam)) = 4%nat).
Proof.
  unfold af_map_get. rewrite af_map_lookup, list_elem_of_In. simpl.
  repeat case_decide; (split; [| intros HH]); try reflexivity;
    try (vm_compute; lia); try (intuition congruence).
  unfold fmt_af4, rjust. rewrite str_length_app, str_length_repeat. lia.
Qed.

Lemma fmt_af4_width_witness :
  String.length (fmt_af4 (af_map_get linux_psutil 17)) = 4%nat
  /\ fmt_af4 (af_map_get linux_psutil 17) = "MAC ".
Proof.
  split; [| reflexivity].
  apply (proj2 (fmt_af4_width linux_psutil 17)). vm_compute. repeat constructor.
Defined.

(** ** Sensor groups *)

(** On a runtime whose set iteration visits each element once, the names
    the climate section goes through are the sensor groups that have
    temperatures or fans, each once even when it has both, and each gets
    its name line, its temperatures, then its fans. *)
Theorem sensor_groups_once (py : PyRuntime)
    (temps : gmap string (list shwtemp)) (fans : gmap string (list sfan)) :
  (forall s : gset string, set_iter py s ≡ₚ elements s) ->
  NoDup (set_iter py (dom temps ∪ dom fans))
  /\ (forall name : string,
        name ∈ set_iter py (dom temps ∪ dom fans)
        <-> is_Some (temps !! name) \/ is_Some (fans !! name))
  /\ writes (for_each (set_iter py (dom temps ∪ dom fans))
               (print_sensor_group py temps fans))
       (concat (map (group_lines py temps fans) (set_iter py (dom temps ∪ dom fans)))).
Proof.
  intros Hperm. split; [| split].
  - rewrite Hperm. apply NoDup_elements.
  - intros name. rewrite Hperm, elem_of_elements, elem_of_union, !elem_of_dom.
    reflexivity.
  - apply writes_for_each. intros name _. apply writes_print_sensor_group.
Qed.

Lemma sensor_groups_once_witness :
  NoDup (set_iter decimal_runtime
           (dom ({[ "coretemp" := [core_temp] ]} : gmap string (list shwtemp))
            ∪ dom (∅ : gmap string (list sfan))))
  /\ writes (print_sensor_group decimal_runtime {[ "coretemp" := [core_temp] ]} ∅
               "coretemp")
       ["coretemp"; "    Temperatures:";
        "        Core 0               45.0°C (high=80.0°C, critical=None°C)"].
Proof.
  split.
  - apply (sensor_groups_once decimal_runtime {[ "coretemp" := [core_temp] ]} ∅).
    intros s. reflexivity.
  - exact (writes_print_sensor_group decimal_runtime
             {[ "coretemp" := [core_temp] ]} ∅ "coretemp").
Defined.

(** ** The last line of the report *)

Lemma line_bind {A B} (l : string) (m : M A) (f : A -> M B) :
  closed_lines m -> (forall x, ends_with_line l (f x)) -> ends_with_line l (m ≫= f).
Proof.
  intros Hm Hf y Hy. rewrite outcome_bind in Hy.
  destruct (outcome m) as [e|x] eqn:Em; [discriminate |].
  destruct (Hm x Em) as [l1 E1]. destruct (Hf x y Hy) as [l2 E2].
  exists (l1 ++ l2). rewrite (stdout_bind_ok _ _ x Em), E1, E2.
  now rewrite <- unlines_app, app_assoc.
Qed.

Lemma banner_closed {A} (m : M A) : ends_with_banner m -> closed_lines m.
Proof. intros H x Hx. destruct (H x Hx) as [ls E]. eauto. Qed.

Lemma main_ends_with py ps p (l : string) :
  ends_with_line l (get_hw_temperatures py p) -> ends_with_line l (main py ps p).
Proof.
  intros H. unfold main.
  apply line_bind; [apply closed_print | intros _].
  apply line_bind; [apply banner_closed, print_program_header_banner | intros _].
  apply line_bind; [apply banner_closed, get_cpu_info_banner | intros _].
  apply line_bind; [apply banner_closed, get_memory_info_banner | intros _].
  apply line_bind; [apply banner_closed, get_disk_info_banner | intros _].
  apply line_bind; [apply banner_closed, get_network_info_banner | intros _].
  exact H.
Qed.

Lemma get_hw_temperatures_ends_with py p temps fans battery :
  read_or (sensors_temperatures p) ∅ = ret temps ->
  read_or (sensors_fans p) ∅ = ret fans ->
  read_or (sensors_battery p) None = ret battery ->
  ends_with_line
    (if negb (dict_truthy temps || dict_truthy fans || battery_truthy battery)
     then cannot_read_msg else SECTION_SPAN)
    (get_hw_temperatures py p).
Proof.
  intros Et Ef Eb. destruct (negb _) eqn:Hall.
  - intros x _. exists [CLIMATE_INFO; SECTION_SPAN].
    rewrite (get_hw_temperatures_render py p temps fans battery Et Ef Eb).
    rewrite stdout_pair, render_climate_stdout, Hall. reflexivity.
  - unfold get_hw_temperatures. rewrite Et, Ef, Eb.
    apply (line_bind SECTION_SPAN); [apply closed_print_section_header | intros _].
    rewrite !ret_bind. apply render_climate_banner.
    intros H. apply all_absent_iff in H. congruence.
Qed.

(** When the whole report is written, its last line is the banner that
    closes the climate section, except on a machine without temperatures,
    fans and battery, where it is the explanatory line of that section. *)
Theorem main_last_line (py : PyRuntime) (ps : PsutilLib) (p : Provider)
    (temps : gmap string (list shwtemp)) (fans : gmap string (list sfan))
    (battery : option sbattery) :
  read_or (sensors_temperatures p) ∅ = ret temps ->
  read_or (sensors_fans p) ∅ = ret fans ->
  read_or (sensors_battery p) None = ret battery ->
  outcome (main py ps p) = inr tt ->
  (temps = ∅ /\ fans = ∅ /\ battery = None ->
   final_line (stdout (main py ps p)) = Some cannot_read_msg)
  /\ (~ (temps = ∅ /\ fans = ∅ /\ battery = None) ->
      final_line (stdout (main py ps p)) = Some SECTION_SPAN).
Proof.
  intros Et Ef Eb Hok.
  pose proof (main_ends_with py ps p _
                (get_hw_temperatures_ends_with py p temps fans battery Et Ef Eb)) as H.
  destruct (H tt Hok) as [ls E]. rewrite E.
  destruct (negb _) eqn:Hall.
  - split; [intros _ | intros Hn; apply all_absent_iff in Hall; contradiction].
    now apply final_line_unlines.
  - split; [intros Ha; apply all_absent_iff in Ha; congruence | intros _].
    now apply final_line_unlines.
Qed.

Lemma main_last_line_witness :
  final_line (stdout (main decimal_runtime linux_psutil laptop)) = Some SECTION_SPAN
  /\ final_line (stdout (main decimal_runtime linux_psutil server))
     = Some cannot_read_msg.
Proof.
  split.
  - apply (proj2 (main_last_line decimal_runtime linux_psutil laptop
                    {[ "coretemp" := [core_temp] ]} ∅ (Some laptop_battery)
                    eq_refl eq_refl eq_refl ltac:(vm_compute; reflexivity))).
    intros (_ & _ & [=]).
  - apply (proj1 (main_last_line decimal_runtime linux_psutil server ∅ ∅ None
                    eq_refl eq_refl eq_refl ltac:(vm_compute; reflexivity))).
    repeat split.
Defined.

(** ** A loop that meets an exception *)

Lemma for_each_raise {A} (before : list A) (y : A) (rest : list A)
    (body : A -> M unit) (f : A -> list string) (w : string) (e : exn) :
  (forall x, x ∈ before -> writes (body x) (f x)) ->
  body y = (w, inl e) ->
  for_each (before ++ y :: rest) body
    = (unlines (concat (map f before)) +:+ w, inl e).
Proof.
  intros Hb Hy. induction before as [|a before IH]; simpl.
  - rewrite bind_unfold, Hy. reflexivity.
  - destruct (Hb a ltac:(constructor)) as [[] Ea].
    rewrite bind_unfold, Ea. simpl. rewrite IH.
    + simpl. now rewrite unlines_app, str_app_assoc.
    + intros x Hx. apply Hb. now constructor.
Qed.

(** The first interface whose duplex code is none of the table's ends the
    network section: the interfaces before it are written, then its name
    line and the open start of its statistics line; the [KeyError] leaves
    the section, and neither the interfaces after it nor the banner are
    written. *)
Theorem get_network_info_stops_at_unknown_duplex (ps : PsutilLib) (p : Provider)
    (stats : gmap string snicstats) (io : gmap string snetio)
    (before rest : list (string * list snicaddr))
    (nic : string) (addrs : list snicaddr) (st : snicstats) :
  net_if_stats p = inr stats -> net_io_counters p = inr io ->
  net_if_addrs p = inr (before ++ (nic, addrs) :: rest) ->
  (forall item st', item ∈ before -> stats !! item.1 = Some st' ->
     is_Some (duplex_map ps !! duplex st')) ->
  stats !! nic = Some st -> duplex_map ps !! duplex st = None ->
  get_network_info ps p
    = (unlines ([NETWORK_INFO; SECTION_SPAN; "Host                : " +:+ gethostname p]
                ++ concat (map (nic_lines ps stats io) before) ++ [nic +:+ ":"])
       +:+ "    stats           :",
       inl (KeyError (duplex st))).
Proof.
  intros Es Ei Ea Hb Est Ed. unfold get_network_info. rewrite Es, Ei, Ea.
  rewrite (bind_unfold (print_section_header NETWORK_INFO)).
  change (outcome (print_section_header NETWORK_INFO)) with (@inr exn _ tt).
  cbv iota.
  change (stdout (print_section_header NETWORK_INFO))
    with (unlines [NETWORK_INFO; SECTION_SPAN]).
  rewrite (bind_unfold (print _)). simpl (outcome (print _)). cbv iota.
  rewrite !call_bind.
  rewrite (bind_unfold (for_each _ _)).
  rewrite (for_each_raise before (nic, addrs) rest _ (nic_lines ps stats io)
             _ _ ltac:(intros [n a] Hx; apply writes_print_nic;
                       intros s' Hs'; exact (Hb (n, a) s' Hx Hs'))
             (print_nic_raises ps stats io nic addrs st Est Ed)).
  rewrite !stdout_pair. simpl outcome. cbv iota. rewrite !stdout_pair.
  f_equal. simpl (stdout (print _)).
  rewrite !unlines_app. simpl (unlines [_; _; _]). simpl (unlines [_]).
  rewrite !str_app_assoc. reflexivity.
Qed.

Lemma get_network_info_stops_at_unknown_duplex_witness :
  get_network_info linux_psutil laptop_odd_duplex
    = (unlines [NETWORK_INFO; SECTION_SPAN; "Host                : laptop";
                "lo:"; "    IPv4 address    : 127.0.0.1";
                "         netmask    : 255.0.0.0"; ""; "eth0:"]
       +:+ "    stats           :",
       inl (KeyError 3)).
Proof.
  refine (get_network_info_stops_at_unknown_duplex linux_psutil laptop_odd_duplex
            {[ "eth0" := odd_stats ]} {[ "eth0" := eth_io ]}
            [("lo", [lo_addr])] [("wlan0", [])] "eth0" [eth_addr] odd_stats
            eq_refl eq_refl eq_refl _ eq_refl eq_refl).
  intros item st' Hitem%list_elem_of_In Hst. simpl in Hitem.
  destruct Hitem as [<- | []]. vm_compute in Hst. discriminate.
Defined.

(** ** The CPU, memory and disk sections *)

(** With all its reads in, the CPU section is eight lines: the header, the
    aggregate usage, the physical cores, the usage of each core, the logical
    cores, the three frequencies cut to integers, and the banner. *)
Theorem get_cpu_info_lines (py : PyRuntime) (p : Provider)
    (usage : Q) (cores : option Z) (per_core : list Q) (logical : option Z)
    (cur mn mx : Q) :
  cpu_percent p = inr usage ->
  cpu_count_physical p = inr cores ->
  cpu_percent_percpu p = inr per_core ->
  cpu_count_logical p = inr logical ->
  cpu_freq p = inr (Some (cur, mn, mx)) ->
  writes (get_cpu_info py p)
    [CPU_INFO; SECTION_SPAN;
     "Aggregate CPU usage: " +:+ float_str py usage +:+ "%";
     "Physical cores:  " +:+ str_opt_int cores;
     "Individual core usage:  " +:+ str_float_list py per_core +:+ "%";
     "Cores including HT:  " +:+ str_opt_int logical;
     "Current, min and max CPU MHz: " +:+ str_int (float_int cur) +:+ ", "
       +:+ str_int (float_int mn) +:+ ", " +:+ str_int (float_int mx);
     SECTION_SPAN].
Proof.
  intros E1 E2 E3 E4 E5. unfold get_cpu_info, print_section_header.
  rewrite E1, E2, E3, E4, E5.
  apply (writes_bind _ _ [CPU_INFO; SECTION_SPAN]);
    [apply writes_print_bind, writes_print | intros _].
  rewrite call_bind. apply writes_print_bind.
  rewrite call_bind. apply writes_print_bind.
  rewrite call_bind. apply writes_print_bind.
  rewrite call_bind. apply writes_print_bind.
  rewrite call_bind. unfold freq_getitem. rewrite !ret_bind. cbv zeta.
  apply writes_print_bind, writes_print.
Qed.

Lemma get_cpu_info_lines_witness :
  writes (get_cpu_info decimal_runtime laptop)
    [CPU_INFO; SECTION_SPAN; "Aggregate CPU usage: 42.0%"; "Physical cores:  4";
     "Individual core usage:  [40.0, 44.0]%"; "Cores including HT:  8";
     "Current, min and max CPU MHz: 2400, 800, 3600"; SECTION_SPAN].
Proof.
  exact (get_cpu_info_lines decimal_runtime laptop _ _ _ _ _ _ _
           eq_refl eq_refl eq_refl eq_refl eq_refl).
Defined.

(** The memory section either meets a read that raises, and then has
    written its header only, or writes the used percentage and the
    available bytes in gigabytes rounded to one decimal, then the banner. *)
Theorem get_memory_info_report (py : PyRuntime) (p : Provider) :
  (forall e, virtual_memory p = inl e ->
     get_memory_info py p = (unlines [MEMORY_INFO; SECTION_SPAN], inl e))
  /\ (forall mem, virtual_memory p = inr mem ->
        writes (get_memory_info py p)
          [MEMORY_INFO; SECTION_SPAN;
           "Memory used:  " +:+ float_str py (vm_percent mem) +:+ "%";
           "Free memory (GB): "
             +:+ float_str py (float_round py (int_truediv py (vm_available mem) GIGABYTE) 1);
           SECTION_SPAN]).
Proof.
  unfold get_memory_info, print_section_header. split.
  - intros e ->. rewrite !bind_unfold. reflexivity.
  - intros mem ->.
    apply (writes_bind _ _ [MEMORY_INFO; SECTION_SPAN]);
      [apply writes_print_bind, writes_print | intros _].
    rewrite call_bind. cbv zeta.
    do 2 apply writes_print_bind. apply writes_print.
Qed.

(** The disk section asks for the usage of the path [/] and no other; when
    that read raises it has written its header only, and otherwise it
    writes the total size in gigabytes rounded to one decimal and the used
    percentage, then the banner. *)
Theorem get_disk_info_report (py : PyRuntime) (p : Provider) :
  (forall e, disk_usage p "/" = inl e ->
     get_disk_info py p = (unlines [DISK_INFO; SECTION_SPAN], inl e))
  /\ (forall du, disk_usage p "/" = inr du ->
        writes (get_disk_info py p)
          [DISK_INFO; SECTION_SPAN;
           "Disk size (GB): "
             +:+ float_str py (float_round py (int_truediv py (du_total du) GIGABYTE) 1);
           "Percent disk used: " +:+ float_str py (du_percent du);
           SECTION_SPAN]).
Proof.
  unfold get_disk_info, print_section_header. split.
  - intros e ->. rewrite !bind_unfold. reflexivity.
  - intros du ->.
    apply (writes_bind _ _ [DISK_INFO; SECTION_SPAN]);
      [apply writes_print_bind, writes_print | intros _].
    rewrite call_bind. cbv zeta.
    do 2 apply writes_print_bind. apply writes_print.
Qed.

Lemma get_disk_info_report_witness :
  get_disk_info decimal_runtime laptop_bad_disk
    = (unlines [DISK_INFO; SECTION_SPAN], inl (ProviderError "FileNotFoundError"))
  /\ writes (get_disk_info decimal_runtime laptop)
       [DISK_INFO; SECTION_SPAN; "Disk size (GB): 64.0"; "Percent disk used: 25.0";
        SECTION_SPAN].
Proof.
  split.
  - exact (proj1 (get_disk_info_report decimal_runtime laptop_bad_disk) _ eq_refl).
  - exact (proj2 (get_disk_info_report decimal_runtime laptop) _ eq_refl).
Defined.

Lemma get_memory_info_report_witness :
  writes (get_memory_info decimal_runtime laptop)
    [MEMORY_INFO; SECTION_SPAN; "Memory used:  75.0%"; "Free memory (GB): 2.0";
     SECTION_SPAN].
Proof.
  exact (proj2 (get_memory_info_report decimal_runtime laptop) _ eq_refl).
Defined.
